(** * data_modules/not_dali.py: transforms, datasets and loaders

    A shallow embedding of the four functions of the module
    ([prepare_transforms], [prepare_datasets], [prepare_dataloaders],
    [prepare_data]) and of the library objects they build, followed by
    the properties the specification states about them.

    Python objects that are mutated after construction (the dataset
    objects) live in an explicit store and are passed around by
    reference; exceptions are the [Err] results of a state-and-error
    monad.

    The torchvision, torch and scikit-learn calls are library code: they
    are modelled on the runs in which the library returns.  An exception
    raised inside a library (a missing folder, a failed download, a
    degenerate split) is neither caught nor translated by the module and
    is outside this embedding. *)

From Stdlib Require Import ZArith QArith Ascii String.
From stdpp Require Import base option list strings gmap.

Local Open Scope string_scope.
Local Open Scope list_scope.

(** ** Python values *)

(** A Python float as far as ordering sees it: a rational value, the two
    infinities, or not-a-number (every comparison with it is false). *)
Inductive pyfloat :=
| Fin (q : Q)
| PosInf
| NegInf
| NaN.

(** [x > k] and [x < k] against an integer literal [k]. *)
Definition float_gt (x : pyfloat) (k : Z) : bool :=
  match x with
  | Fin q => negb (Qle_bool q (inject_Z k))
  | PosInf => true
  | NegInf | NaN => false
  end.

Definition float_lt (x : pyfloat) (k : Z) : bool :=
  match x with
  | Fin q => negb (Qle_bool (inject_Z k) q)
  | NegInf => true
  | PosInf | NaN => false
  end.

(** [x >= k] and [x <= k]. *)
Definition float_ge (x : pyfloat) (k : Z) : bool :=
  match x with
  | Fin q => Qle_bool (inject_Z k) q
  | PosInf => true
  | NegInf | NaN => false
  end.

Definition float_le (x : pyfloat) (k : Z) : bool :=
  match x with
  | Fin q => Qle_bool q (inject_Z k)
  | NegInf => true
  | PosInf | NaN => false
  end.

(** The exceptions the module can raise by itself.  [AssertionError]
    carries the message of the [assert] statement, if it has one. *)
Inductive exn :=
| AssertionError (msg : option string)
| AttributeError (attr : string)
| KeyError (key : string)
| UnboundLocalError (var : string).

Inductive result (A : Type) :=
| Ok (a : A)
| Err (e : exn).
Arguments Ok {A} a.
Arguments Err {A} e.

(** ** Transform pipelines *)

Inductive size_arg :=
| SInt (n : Z)
| SPair (h w : Z).

Inductive transform_op :=
| RandomResizedCrop (size : Z) (scale : Q * Q)
| RandomHorizontalFlip
| ToTensor
| Normalize (mean std : Q * Q * Q)
| Resize (size : size_arg)
| CenterCrop (size : Z).

(** [transforms.Compose([...])] *)
Definition Compose := list transform_op.

(** The dict with the two keys ["T_train"] and ["T_val"]. *)
Record pipeline := { T_train : Compose; T_val : Compose }.

Definition build_custom_pipeline : pipeline :=
  {| T_train :=
       [ RandomResizedCrop 224 (0.08, 1.0)%Q;
         RandomHorizontalFlip;
         ToTensor;
         Normalize (0.485, 0.456, 0.406)%Q (0.228, 0.224, 0.225)%Q ];
     T_val :=
       [ Resize (SInt 256);
         CenterCrop 224;
         ToTensor;
         Normalize (0.485, 0.456, 0.406)%Q (0.228, 0.224, 0.225)%Q ] |}.

Definition cifar_pipeline : pipeline :=
  {| T_train :=
       [ RandomResizedCrop 32 (0.08, 1.0)%Q;
         RandomHorizontalFlip;
         ToTensor;
         Normalize (0.4914, 0.4822, 0.4465)%Q (0.247, 0.243, 0.261)%Q ];
     T_val :=
       [ ToTensor;
         Normalize (0.4914, 0.4822, 0.4465)%Q (0.247, 0.243, 0.261)%Q ] |}.

Definition stl_pipeline : pipeline :=
  {| T_train :=
       [ RandomResizedCrop 96 (0.08, 1.0)%Q;
         RandomHorizontalFlip;
         ToTensor;
         Normalize (0.4914, 0.4823, 0.4466)%Q (0.247, 0.243, 0.261)%Q ];
     T_val :=
       [ Resize (SPair 96 96);
         ToTensor;
         Normalize (0.4914, 0.4823, 0.4466)%Q (0.247, 0.243, 0.261)%Q ] |}.

Definition imagenet_pipeline : pipeline :=
  {| T_train :=
       [ RandomResizedCrop 224 (0.08, 1.0)%Q;
         RandomHorizontalFlip;
         ToTensor;
         Normalize (0.485, 0.456, 0.406)%Q (0.228, 0.224, 0.225)%Q ];
     T_val :=
       [ Resize (SInt 256);
         CenterCrop 224;
         ToTensor;
         Normalize (0.485, 0.456, 0.406)%Q (0.228, 0.224, 0.225)%Q ] |}.

Definition imagenet32_pipeline : pipeline :=
  {| T_train :=
       [ RandomResizedCrop 32 (0.08, 1.0)%Q;
         RandomHorizontalFlip;
         ToTensor;
         Normalize (0.4914, 0.4822, 0.4465)%Q (0.247, 0.243, 0.261)%Q ];
     T_val :=
       [ Resize (SInt 256);
         CenterCrop 224;
         Resize (SInt 32);
         ToTensor;
         Normalize (0.4914, 0.4822, 0.4465)%Q (0.247, 0.243, 0.261)%Q ] |}.

Definition custom_pipeline : pipeline := build_custom_pipeline.

(** The [pipelines] dict of [prepare_transforms]. *)
Definition pipelines : gmap string pipeline :=
  <["imagenet32" := imagenet32_pipeline]>
  (<["custom" := custom_pipeline]>
  (<["imagenet" := imagenet_pipeline]>
  (<["imagenet100" := imagenet_pipeline]>
  (<["stl10" := stl_pipeline]>
  (<["cifar100" := cifar_pipeline]>
  (<["cifar10" := cifar_pipeline]> ∅)))))).

Definition prepare_transforms (dataset : string) : result (Compose * Compose) :=
  match pipelines !! dataset with
  | None => Err (AssertionError None)          (* assert dataset in pipelines *)
  | Some pipeline => Ok (T_train pipeline, T_val pipeline)
  end.

(** ** Library objects *)

(** [str.upper] on ASCII letters. *)
Definition upper_ascii (c : ascii) : ascii :=
  let n := nat_of_ascii c in
  if (97 <=? n)%nat && (n <=? 122)%nat then ascii_of_nat (n - 32) else c.

Fixpoint upper (s : string) : string :=
  match s with
  | EmptyString => EmptyString
  | String c s' => String (upper_ascii c) (upper s')
  end.

(** The dataset classes of torchvision the module reaches. *)
Inductive dataset_class := CIFAR10 | CIFAR100 | STL10 | ImageFolder.

(** [vars(torchvision.datasets)], restricted to those classes. *)
Definition torchvision_datasets : gmap string dataset_class :=
  <["ImageFolder" := ImageFolder]>
  (<["STL10" := STL10]>
  (<["CIFAR100" := CIFAR100]>
  (<["CIFAR10" := CIFAR10]> ∅))).

(** How a dataset object was told which part of the data to serve:
    [train=...] (CIFAR), [split="..."] (STL10), or nothing (ImageFolder). *)
Inductive split_arg :=
| TrainFlag (train : bool)
| SplitName (name : string)
| WholeFolder.

(** One (file, label) entry of a folder-per-class dataset. *)
Definition sample : Type := string * nat.

(** A dataset object.  [samples] is the attribute of that name: the
    folder-per-class class sets it in its constructor, the archive-backed
    classes (which keep [data] and [targets] or [labels]) do not have it. *)
Record dataset_obj := {
  cls : dataset_class;
  root : string;
  split : split_arg;
  transform : Compose;
  samples : option (list sample)
}.

Definition set_samples (o : dataset_obj) (s : list sample) : dataset_obj :=
  {| cls := cls o; root := root o; split := split o;
     transform := transform o; samples := Some s |}.

(** References to dataset objects are positions in the store. *)
Abbreviation loc := nat (only parsing).

(** [torch.utils.data.DataLoader], as configured at construction. *)
Record DataLoader := {
  dataset : loc;
  batch_size : Z;
  shuffle : bool;
  num_workers : Z;
  pin_memory : bool;
  drop_last : bool
}.

(** The constructor with its keyword defaults: [shuffle] and [drop_last]
    are off when the call does not pass them. *)
Definition new_DataLoader (ds : loc) (bs : Z) (shuffle : option bool)
    (nw : Z) (pin : bool) (drop : option bool) : DataLoader :=
  {| dataset := ds; batch_size := bs;
     shuffle := default false shuffle;
     num_workers := nw; pin_memory := pin;
     drop_last := default false drop |}.

(** The batch sampler of a loader: walk the indices the sampler yields,
    emit a batch each time [batch_size] of them are collected, and emit
    what is left at the end unless [drop_last]. *)
Fixpoint batch_sampler (bs : Z) (drop : bool) (batch : list nat)
    (indices : list nat) : list (list nat) :=
  match indices with
  | [] => if negb (length batch =? 0)%nat && negb drop then [batch] else []
  | idx :: rest =>
      let batch := batch ++ [idx] in
      if (Z.of_nat (length batch) =? bs)%Z
      then batch :: batch_sampler bs drop [] rest
      else batch_sampler bs drop batch rest
  end.

(** The index order of one pass: a permutation [perm] of the indices drawn
    by the random sampler when [shuffle], the indices in order otherwise. *)
Definition sampler (ld : DataLoader) (n : nat) (perm : list nat) : list nat :=
  if shuffle ld then perm else seq 0 n.

(** The batches (as index lists) of one pass over a dataset of [n] items. *)
Definition batches (ld : DataLoader) (n : nat) (perm : list nat) : list (list nat) :=
  batch_sampler (batch_size ld) (drop_last ld) [] (sampler ld n perm).

(** ** The module, over the libraries it calls *)

Section NotDali.

(** The folder this module is installed two levels under
    ([dirname(dirname(realpath(__file__)))]). *)
Variable sandbox_folder : string.

(** What the folder-per-class class finds under a root: its
    (file, label) list. *)
Variable make_dataset : string -> list sample.

(** numpy generators: the state type, and the generator seeded with an
    integer. *)
Variable rng : Type.
Variable RandomState : Z -> rng.

(** scikit-learn's stratified shuffle split: from a generator, the
    requested [train_size] and one label per sample, the indices of the
    training part and of the test part, and the generator after use. *)
Variable stratified_shuffle_split :
  rng -> pyfloat -> list nat -> (list nat * list nat) * rng.

(** The state a call runs in: the store of dataset objects, the downloads
    the dataset classes were asked to do (class and root, latest last),
    and numpy's global generator. *)
Record world := {
  heap : list dataset_obj;
  downloads : list (dataset_class * string);
  np_random : rng
}.

Definition M (A : Type) : Type := world -> result A * world.

Definition raise {A} (e : exn) : M A := fun w => (Err e, w).

#[export] Instance M_ret : MRet M := fun A a w => (Ok a, w).

#[export] Instance M_bind : MBind M := fun A B k m w =>
  match m w with
  | (Ok a, w') => k a w'
  | (Err e, w') => (Err e, w')
  end.

Definition ret {A} (a : A) : M A := mret a.

(** [assert cond] and [assert cond, msg] *)
Definition assert_ (cond : bool) (msg : option string) : M unit :=
  if cond then ret tt else raise (AssertionError msg).

(** Reading a local variable that an [if]/[elif] chain may have left
    unassigned. *)
Definition local {A} (name : string) (v : option A) : M A :=
  match v with
  | Some a => ret a
  | None => raise (UnboundLocalError name)
  end.

(** A new object gets the next free position of the store. *)
Definition alloc (o : dataset_obj) : M loc :=
  fun w =>
    (Ok (length (heap w)),
     {| heap := heap w ++ [o]; downloads := downloads w; np_random := np_random w |}).

Definition log_download (c : dataset_class) (r : string) : M unit :=
  fun w =>
    (Ok tt,
     {| heap := heap w; downloads := downloads w ++ [(c, r)]; np_random := np_random w |}).

(** The [samples] attribute of the object at [l], if it has one. *)
Definition samples_at (w : world) (l : loc) : option (list sample) :=
  match heap w !! l with
  | Some o => samples o
  | None => None
  end.

(** [obj.samples] *)
Definition getattr_samples (l : loc) : M (list sample) :=
  fun w =>
    match samples_at w l with
    | Some s => (Ok s, w)
    | None => (Err (AttributeError "samples"), w)
    end.

(** [obj.samples = s]: the object at [l] is updated where it is. *)
Definition setattr_samples (l : loc) (s : list sample) : M unit :=
  fun w =>
    (Ok tt,
     {| heap := match heap w !! l with
                | Some o => <[l := set_samples o s]> (heap w)
                | None => heap w
                end;
        downloads := downloads w; np_random := np_random w |}).

(** [CIFAR10(root, train=, download=, transform=)] and the same for
    [CIFAR100]: download first when asked, then build the object. *)
Definition new_CIFAR (c : dataset_class) (r : string) (train download : bool)
    (t : Compose) : M loc :=
  (if download then log_download c r else ret tt);;
  alloc {| cls := c; root := r; split := TrainFlag train;
           transform := t; samples := None |}.

(** [STL10(root, split=, download=, transform=)] *)
Definition new_STL10 (r : string) (split_name : string) (download : bool)
    (t : Compose) : M loc :=
  (if download then log_download STL10 r else ret tt);;
  alloc {| cls := STL10; root := r; split := SplitName split_name;
           transform := t; samples := None |}.

(** [ImageFolder(root, transform)]: no download parameter; the sample
    list is read from the folder. *)
Definition new_ImageFolder (r : string) (t : Compose) : M loc :=
  alloc {| cls := ImageFolder; root := r; split := WholeFolder;
           transform := t; samples := Some (make_dataset r) |}.

(** [a[i] for i in idx] (the library only produces indices in range). *)
Definition indexing {A} (a : list A) (idx : list nat) : list A :=
  omap (fun i => a !! i) idx.

(** [sklearn.model_selection.train_test_split(X, y, train_size=,
    stratify=, random_state=)]: an integer [random_state] seeds a
    generator of its own, [None] draws from (and advances) the global one;
    the two arrays are indexed by the same train and test indices. *)
Definition train_test_split (X : list string) (y : list nat)
    (train_size : pyfloat) (stratify : list nat) (random_state : option Z)
  : M (list string * list string * list nat * list nat) :=
  fun w =>
    let g := match random_state with
             | Some seed => RandomState seed
             | None => np_random w
             end in
    let '((train, test), g') := stratified_shuffle_split g train_size stratify in
    (Ok (indexing X train, indexing X test, indexing y train, indexing y test),
     match random_state with
     | Some _ => w
     | None => {| heap := heap w; downloads := downloads w; np_random := g' |}
     end).

(** The name lists [prepare_datasets] tests membership in. *)
Definition dataset_names : list string :=
  ["cifar10"; "cifar100"; "stl10"; "imagenet"; "imagenet100"; "custom"; "imagenet32"].

Definition cifar_names : list string := ["cifar10"; "cifar100"].

Definition folder_names : list string :=
  ["imagenet"; "imagenet100"; "custom"; "imagenet32"].

(** [prepare_datasets], first part: the default paths, the assertion on
    the name and the [if]/[elif] chain that builds the two objects.  The
    result is what the local variables [train_dataset] and [val_dataset]
    hold afterwards ([None]: no branch assigned them). *)
Definition build_datasets (dataset : string) (T_train T_val : Compose)
    (train_data_path val_data_path : option string)
    (data_format : option string) (download : bool)
  : M (option (loc * loc)) :=
  let train_data_path :=
    match train_data_path with
    | None => sandbox_folder +:+ "/datasets"
    | Some p => p
    end in
  let val_data_path :=
    match val_data_path with
    | None => sandbox_folder +:+ "/datasets"
    | Some p => p
    end in
  assert_ (bool_decide (dataset ∈ dataset_names)) None;;
  if bool_decide (dataset ∈ cifar_names) then
    DatasetClass ←
      match torchvision_datasets !! upper dataset with
      | Some c => ret c
      | None => raise (KeyError (upper dataset))
      end;
    train_dataset ← new_CIFAR DatasetClass train_data_path true download T_train;
    val_dataset ← new_CIFAR DatasetClass val_data_path false download T_val;
    ret (Some (train_dataset, val_dataset))
  else if String.eqb dataset "stl10" then
    train_dataset ← new_STL10 train_data_path "train" true T_train;
    val_dataset ← new_STL10 val_data_path "test" download T_val;
    ret (Some (train_dataset, val_dataset))
  else if bool_decide (dataset ∈ folder_names) then
    train_dataset ← new_ImageFolder train_data_path T_train;
    val_dataset ← new_ImageFolder val_data_path T_val;
    ret (Some (train_dataset, val_dataset))
  else ret None.

(** [prepare_datasets], second part: the [if data_fraction > 0:] block. *)
Definition subsample (built : option (loc * loc)) (data_fraction : pyfloat)
  : M unit :=
  if float_gt data_fraction 0 then
    assert_ (float_lt data_fraction 1)
      (Some "Only use data_fraction for values smaller than 1.");;
    train_dataset ← local "train_dataset" (fst <$> built);
    data ← getattr_samples train_dataset;
    let files := map fst data in
    let labels := map snd data in
    '(files, _, labels, _) ←
       train_test_split files labels data_fraction labels (Some 42%Z);
    setattr_samples train_dataset (zip files labels)
  else ret tt.

Definition prepare_datasets (dataset : string) (T_train T_val : Compose)
    (train_data_path val_data_path : option string)
    (data_format : option string) (download : bool) (data_fraction : pyfloat)
  : M (loc * loc) :=
  built ← build_datasets dataset T_train T_val train_data_path val_data_path
             data_format download;
  subsample built data_fraction;;
  train_dataset ← local "train_dataset" (fst <$> built);
  val_dataset ← local "val_dataset" (snd <$> built);
  ret (train_dataset, val_dataset).

Definition prepare_dataloaders (train_dataset val_dataset : loc)
    (batch_size num_workers : Z) : DataLoader * DataLoader :=
  let train_loader :=
    new_DataLoader train_dataset batch_size (Some true) num_workers true (Some true) in
  let val_loader :=
    new_DataLoader val_dataset batch_size None num_workers true (Some false) in
  (train_loader, val_loader).

Definition prepare_data (dataset : string)
    (train_data_path val_data_path : option string)
    (data_format : option string) (batch_size num_workers : Z)
    (download : bool) (data_fraction : pyfloat)
  : M (DataLoader * DataLoader) :=
  '(T_train, T_val) ←
     match prepare_transforms dataset with
     | Ok p => ret p
     | Err e => raise e
     end;
  '(train_dataset, val_dataset) ←
     prepare_datasets dataset T_train T_val train_data_path val_data_path
       data_format download data_fraction;
  let '(train_loader, val_loader) :=
    prepare_dataloaders train_dataset val_dataset batch_size num_workers in
  ret (train_loader, val_loader).

(** The indices kept by the split the module asks for: seeded with 42,
    stratified on the labels themselves. *)
Definition kept_indices (f : pyfloat) (data : list sample) : list nat :=
  (stratified_shuffle_split (RandomState 42) f (map snd data)).1.1.

End NotDali.

Arguments heap {rng} w.
Arguments downloads {rng} w.
Arguments np_random {rng} w.
Arguments samples_at {rng} w l.
Arguments Build_world {rng} heap downloads np_random.

(** ** Vocabulary of the statements *)

(** The message of the assertion on [data_fraction]. *)
Definition fraction_msg : string :=
  "Only use data_fraction for values smaller than 1.".

(** The three archive-backed names. *)
Definition archive_names : list string := ["cifar10"; "cifar100"; "stl10"].

(** The object [ImageFolder(r, t)] builds, with a given sample list. *)
Definition folder_obj (r : string) (t : Compose) (s : list sample) : dataset_obj :=
  {| cls := ImageFolder; root := r; split := WholeFolder;
     transform := t; samples := Some s |}.

(** The class [prepare_datasets] instantiates for a recognized name. *)
Definition class_of (d : string) : dataset_class :=
  if bool_decide (d ∈ folder_names) then ImageFolder
  else if String.eqb d "stl10" then STL10
  else if String.eqb d "cifar10" then CIFAR10
  else CIFAR100.

(** The downloads the two constructor calls of a name ask for, given the
    [download] flag and the two roots. *)
Definition requested_downloads (d : string) (download : bool)
    (train_root val_root : string) : list (dataset_class * string) :=
  if bool_decide (d ∈ cifar_names) then
    if download then [(class_of d, train_root); (class_of d, val_root)] else []
  else if String.eqb d "stl10" then
    (STL10, train_root) :: (if download then [(STL10, val_root)] else [])
  else [].

(** The object a recognized name's constructor call builds on a root, for
    the training side ([train]) or the validation side, with a transform;
    [scan] is what the folder-per-class class reads under a root. *)
Definition built_obj (scan : string -> list sample) (d : string) (r : string)
    (train : bool) (t : Compose) : dataset_obj :=
  {| cls := class_of d;
     root := r;
     split := if bool_decide (d ∈ folder_names) then WholeFolder
              else if String.eqb d "stl10"
                   then SplitName (if train then "train" else "test")
                   else TrainFlag train;
     transform := t;
     samples := if bool_decide (d ∈ folder_names) then Some (scan r) else None |}.

(** Whether an operation of a pipeline draws random numbers. *)
Definition is_random (op : transform_op) : bool :=
  match op with
  | RandomResizedCrop _ _ | RandomHorizontalFlip => true
  | _ => false
  end.

(** The statistics an operation normalizes with, if it is a
    normalization. *)
Definition normalization (op : transform_op) : option (Q * Q * Q * (Q * Q * Q)) :=
  match op with
  | Normalize mean std => Some (mean, std)
  | _ => None
  end.

(** The (height, width) of an image after an operation.  A resize to an
    integer matches the shorter side and scales the longer one; crops to
    an integer give a square; a resize to a pair gives that pair. *)
Definition op_size (op : transform_op) (hw : Z * Z) : Z * Z :=
  match op with
  | RandomResizedCrop size _ => (size, size)
  | CenterCrop size => (size, size)
  | Resize (SPair h w) => (h, w)
  | Resize (SInt size) =>
      let '(h, w) := hw in
      if (w <=? h)%Z then (size * h / w, size)%Z else (size, size * w / h)%Z
  | RandomHorizontalFlip | ToTensor | Normalize _ _ => hw
  end.

(** The size of an image after a whole pipeline. *)
Definition out_size (c : Compose) (hw : Z * Z) : Z * Z :=
  foldl (fun acc op => op_size op acc) hw c.

(** The side of the images a name's pipelines are made for. *)
Definition crop_size (d : string) : Z :=
  if bool_decide (d ∈ ["cifar10"; "cifar100"; "imagenet32"]) then 32
  else if String.eqb d "stl10" then 96
  else 224.

(** ** A small concrete setting

    Two folders of a few files, generators that are just counters, and a
    stand-in for the split: class by class, it keeps the files whose rank
    in the class is below the whole part of [train_size * k], for the [k]
    files of the class, in exact arithmetic.  It is not the library's
    rule; it only gives the examples below something to run on. *)

Module Demo.

Definition sandbox_folder : string := "/opt/msc".

Definition make_dataset (r : string) : list sample :=
  if String.eqb r "data/train" then
    [("cat/1.png", 0); ("cat/2.png", 0); ("dog/1.png", 1); ("dog/2.png", 1)]
  else if String.eqb r "data/val" then
    [("cat/9.png", 0); ("dog/8.png", 1); ("dog/9.png", 1)]
  else [].

Definition rng : Type := nat.

Definition RandomState (seed : Z) : rng := Z.to_nat seed.

(** Rank of position [i] among the positions carrying the same label. *)
Definition rank_in_class (labels : list nat) (i : nat) : nat :=
  match labels !! i with
  | Some c => length (filter (fun l => l = c) (take i labels))
  | None => 0
  end.

Definition class_size (labels : list nat) (i : nat) : nat :=
  match labels !! i with
  | Some c => length (filter (fun l => l = c) labels)
  | None => 0
  end.

Definition kept (train_size : pyfloat) (labels : list nat) (i : nat) : bool :=
  match train_size with
  | Fin q =>
      (Z.of_nat (rank_in_class labels i)
       <? Qnum q * Z.of_nat (class_size labels i) / Z.pos (Qden q))%Z
  | _ => false
  end.

Definition stratified_shuffle_split (g : rng) (train_size : pyfloat)
    (labels : list nat) : (list nat * list nat) * rng :=
  let all := seq 0 (length labels) in
  ((List.filter (kept train_size labels) all,
    List.filter (fun i => negb (kept train_size labels i)) all),
   S g).

Definition build_datasets :=
  build_datasets sandbox_folder make_dataset rng.

Definition prepare_datasets :=
  prepare_datasets sandbox_folder make_dataset rng RandomState stratified_shuffle_split.

Definition prepare_data :=
  prepare_data sandbox_folder make_dataset rng RandomState stratified_shuffle_split.

Definition w0 : world rng := Build_world [] [] 7.

(** The state after a first call on imagenet100, with the global
    generator moved on. *)
Definition w1 : world rng :=
  Build_world
    (heap (prepare_datasets "imagenet100" [] [] (Some "data/train")
             (Some "data/val") None true (Fin 0.5) w0).2)
    [] 99.

End Demo.

(** ** The definitions on small inputs *)

Example prepare_transforms_cifar10 :
  prepare_transforms "cifar10" = Ok (T_train cifar_pipeline, T_val cifar_pipeline).
Proof. vm_compute. reflexivity. Qed.

Example prepare_transforms_mnist :
  prepare_transforms "mnist" = Err (AssertionError None).
Proof. vm_compute. reflexivity. Qed.

Example batches_val_7_by_3 :
  batches (new_DataLoader 0 3 None 4 true (Some false)) 7 [] = [[0;1;2];[3;4;5];[6]]%nat.
Proof. reflexivity. Qed.

Example batches_train_7_by_3 :
  batches (new_DataLoader 0 3 (Some true) 4 true (Some true)) 7 [4;2;6;0;1;5;3]%nat
  = [[4;2;6];[0;1;5]]%nat.
Proof. reflexivity. Qed.

Example prepare_datasets_custom_all_data :
  Demo.prepare_datasets "custom" [ToTensor] [] (Some "data/train") None
    (Some "image_folder") true (Fin (-1)) Demo.w0
  = (Ok (0, 1),
     Build_world
       [ folder_obj "data/train" [ToTensor]
           [("cat/1.png", 0); ("cat/2.png", 0); ("dog/1.png", 1); ("dog/2.png", 1)];
         folder_obj "/opt/msc/datasets" [] [] ]
       [] 7).
Proof. reflexivity. Qed.

Example prepare_datasets_cifar100_downloads :
  Demo.prepare_datasets "cifar100" [] [] (Some "data/train") (Some "data/val")
    None true NaN Demo.w0
  = (Ok (0, 1),
     Build_world
       [ {| cls := CIFAR100; root := "data/train"; split := TrainFlag true;
            transform := []; samples := None |};
         {| cls := CIFAR100; root := "data/val"; split := TrainFlag false;
            transform := []; samples := None |} ]
       [(CIFAR100, "data/train"); (CIFAR100, "data/val")] 7).
Proof. reflexivity. Qed.

Example prepare_datasets_infinite_fraction :
  (Demo.prepare_datasets "imagenet32" [] [] None None None false PosInf Demo.w0).1
  = Err (AssertionError (Some fraction_msg)).
Proof. reflexivity. Qed.

Example prepare_data_imagenet_half :
  (Demo.prepare_data "imagenet" (Some "data/train") (Some "data/val") None
     2 4 true (Fin 0.5) Demo.w0).1
  = Ok ({| dataset := 0; batch_size := 2; shuffle := true; num_workers := 4;
           pin_memory := true; drop_last := true |},
        {| dataset := 1; batch_size := 2; shuffle := false; num_workers := 4;
           pin_memory := true; drop_last := false |}).
Proof. reflexivity. Qed.

Example prepare_data_mnist :
  Demo.prepare_data "mnist" None None None 64 4 true (Fin (-1)) Demo.w0
  = (Err (AssertionError None), Demo.w0).
Proof. reflexivity. Qed.

(** * Properties *)

Section Properties.

Variable sandbox_folder : string.
Variable make_dataset : string -> list sample.
Variable rng : Type.
Variable RandomState : Z -> rng.
Variable stratified_shuffle_split :
  rng -> pyfloat -> list nat -> (list nat * list nat) * rng.

Local Abbreviation build_datasets := (build_datasets sandbox_folder make_dataset rng).
Local Abbreviation subsample :=
  (subsample rng RandomState stratified_shuffle_split).
Local Abbreviation prepare_datasets :=
  (prepare_datasets sandbox_folder make_dataset rng RandomState stratified_shuffle_split).
Local Abbreviation prepare_data :=
  (prepare_data sandbox_folder make_dataset rng RandomState stratified_shuffle_split).
Local Abbreviation kept_indices :=
  (kept_indices rng RandomState stratified_shuffle_split).

(** The path a call works with: the argument, or the [datasets] folder
    next to the package. *)
Local Abbreviation path_of p := (default (sandbox_folder +:+ "/datasets") p).

(** Unfolds the monad and the library constructors in the goal. *)
Ltac run :=
  unfold new_CIFAR, new_STL10, new_ImageFolder, assert_, local, log_download,
    alloc, getattr_samples, setattr_samples, train_test_split, ret, raise;
  unfold mbind, mret, M_bind, M_ret; cbn.

(** *** The name tests *)

Lemma names_split (d : string) :
  d ∈ dataset_names <-> d ∈ cifar_names \/ d = "stl10" \/ d ∈ folder_names.
Proof.
  unfold dataset_names, cifar_names, folder_names.
  rewrite !elem_of_cons, !elem_of_nil. tauto.
Qed.

Lemma cifar_not_stl (d : string) : d ∈ cifar_names -> String.eqb d "stl10" = false.
Proof.
  unfold cifar_names. intros Hd.
  repeat (apply elem_of_cons in Hd as [-> | Hd]); try reflexivity.
  by apply elem_of_nil in Hd.
Qed.

Lemma folder_not_cifar (d : string) : d ∈ folder_names -> d ∉ cifar_names.
Proof.
  unfold folder_names, cifar_names. intros Hd.
  repeat (apply elem_of_cons in Hd as [-> | Hd]);
    try (intros Hc; repeat (apply elem_of_cons in Hc as [Hc | Hc]; [discriminate |]);
         by apply elem_of_nil in Hc).
  by apply elem_of_nil in Hd.
Qed.

Lemma folder_not_stl (d : string) : d ∈ folder_names -> String.eqb d "stl10" = false.
Proof.
  unfold folder_names. intros Hd.
  repeat (apply elem_of_cons in Hd as [-> | Hd]); try reflexivity.
  by apply elem_of_nil in Hd.
Qed.

Lemma cifar_class (d : string) :
  d ∈ cifar_names ->
  torchvision_datasets !! upper d = Some (if String.eqb d "cifar10" then CIFAR10 else CIFAR100).
Proof.
  unfold cifar_names. intros Hd.
  repeat (apply elem_of_cons in Hd as [-> | Hd]); try (vm_compute; reflexivity).
  by apply elem_of_nil in Hd.
Qed.

(** *** What the first part of [prepare_datasets] does *)

Lemma build_unrecognized d Tt Tv tp vp fmt dl (w : world rng) :
  d ∉ dataset_names ->
  build_datasets d Tt Tv tp vp fmt dl w = (Err (AssertionError None), w).
Proof.
  intros Hd. unfold build_datasets.
  rewrite (bool_decide_eq_false_2 _ Hd). reflexivity.
Qed.

Lemma build_folder d Tt Tv tp vp fmt dl (w : world rng) :
  d ∈ folder_names ->
  build_datasets d Tt Tv tp vp fmt dl w =
  (Ok (Some (length (heap w), S (length (heap w)))),
   {| heap := heap w ++
        [ {| cls := ImageFolder; root := path_of tp; split := WholeFolder;
             transform := Tt; samples := Some (make_dataset (path_of tp)) |};
          {| cls := ImageFolder; root := path_of vp; split := WholeFolder;
             transform := Tv; samples := Some (make_dataset (path_of vp)) |} ];
      downloads := downloads w;
      np_random := np_random w |}).
Proof.
  intros Hd. unfold build_datasets.
  rewrite (bool_decide_eq_true_2 (d ∈ dataset_names)) by (apply names_split; auto).
  rewrite (bool_decide_eq_false_2 _ (folder_not_cifar d Hd)).
  rewrite (folder_not_stl d Hd).
  rewrite (bool_decide_eq_true_2 _ Hd).
  run. rewrite length_app. cbn. rewrite Nat.add_1_r, <- app_assoc.
  destruct tp, vp; reflexivity.
Qed.

Lemma build_cifar d Tt Tv tp vp fmt dl (w : world rng) :
  d ∈ cifar_names ->
  let c := if String.eqb d "cifar10" then CIFAR10 else CIFAR100 in
  build_datasets d Tt Tv tp vp fmt dl w =
  (Ok (Some (length (heap w), S (length (heap w)))),
   {| heap := heap w ++
        [ {| cls := c; root := path_of tp; split := TrainFlag true;
             transform := Tt; samples := None |};
          {| cls := c; root := path_of vp; split := TrainFlag false;
             transform := Tv; samples := None |} ];
      downloads := downloads w ++
        (if dl then [(c, path_of tp); (c, path_of vp)] else []);
      np_random := np_random w |}).
Proof.
  intros Hd c. unfold build_datasets.
  rewrite (bool_decide_eq_true_2 (d ∈ dataset_names)) by (apply names_split; auto).
  rewrite (bool_decide_eq_true_2 _ Hd).
  run. rewrite (cifar_class d Hd). fold c.
  destruct dl, tp, vp; cbn;
    rewrite ?length_app, <- ?app_assoc, ?app_nil_r; cbn;
    rewrite ?Nat.add_1_r; reflexivity.
Qed.

Lemma build_stl Tt Tv tp vp fmt dl (w : world rng) :
  build_datasets "stl10" Tt Tv tp vp fmt dl w =
  (Ok (Some (length (heap w), S (length (heap w)))),
   {| heap := heap w ++
        [ {| cls := STL10; root := path_of tp; split := SplitName "train";
             transform := Tt; samples := None |};
          {| cls := STL10; root := path_of vp; split := SplitName "test";
             transform := Tv; samples := None |} ];
      downloads := downloads w ++
        (STL10, path_of tp) :: (if dl then [(STL10, path_of vp)] else []);
      np_random := np_random w |}).
Proof.
  unfold build_datasets.
  rewrite (bool_decide_eq_true_2 ("stl10" ∈ dataset_names))
    by (apply names_split; auto).
  rewrite (bool_decide_eq_false_2 ("stl10" ∈ cifar_names))
    by (intros Hc; by apply cifar_not_stl in Hc).
  run.
  destruct dl, tp, vp; cbn;
    rewrite ?length_app, <- ?app_assoc; cbn;
    rewrite ?Nat.add_1_r; reflexivity.
Qed.

(** Whatever the name, the first part either stops at its assertion or
    appends exactly two objects to the store and hands out their
    positions. *)
Lemma build_shape (d : string) Tt Tv tp vp fmt dl (w : world rng) :
  ((d ∉ dataset_names) /\
   build_datasets d Tt Tv tp vp fmt dl w = (Err (AssertionError None), w)) \/
  ((d ∈ dataset_names) /\
   exists to vo dls,
     build_datasets d Tt Tv tp vp fmt dl w =
     (Ok (Some (length (heap w), S (length (heap w)))),
      {| heap := heap w ++ [to; vo]; downloads := dls; np_random := np_random w |})
     /\ (samples to = None <-> d ∉ folder_names)).
Proof.
  destruct (decide (d ∈ dataset_names)) as [Hd | Hd].
  - right. split; [done |].
    apply names_split in Hd as [Hc | [-> | Hf]].
    + eexists _, _, _. split; [apply build_cifar; done |]. cbn.
      split; [| done]. intros _ Hf. by apply folder_not_cifar in Hf.
    + eexists _, _, _. split; [apply build_stl |]. cbn.
      split; [| done]. intros _ Hf. by apply folder_not_stl in Hf.
    + eexists _, _, _. split; [apply build_folder; done |]. cbn.
      split; [done |]. intros Hn. by destruct Hn.
  - left. split; [done |]. by apply build_unrecognized.
Qed.

(** *** Comparisons of floats *)

Lemma float_ge_not_lt x k : float_ge x k = true -> float_lt x k = false.
Proof. destruct x; cbn; try done. by intros ->. Qed.

Lemma float_le_not_gt x k : float_le x k = true -> float_gt x k = false.
Proof. destruct x; cbn; try done. by intros ->. Qed.

Lemma float_gt_Fin (q : Q) : (0 < q)%Q -> float_gt (Fin q) 0 = true.
Proof.
  intros Hq. cbn. apply negb_true_iff, not_true_iff_false.
  rewrite Qle_bool_iff. by apply Qlt_not_le.
Qed.

Lemma float_lt_Fin (q : Q) : (q < 1)%Q -> float_lt (Fin q) 1 = true.
Proof.
  intros Hq. cbn. apply negb_true_iff, not_true_iff_false.
  rewrite Qle_bool_iff. by apply Qlt_not_le.
Qed.

(** *** What the second part of [prepare_datasets] does *)

Lemma zip_indexing {A B} (data : list (A * B)) (idx : list nat) :
  zip (indexing (map fst data) idx) (indexing (map snd data) idx)
  = indexing data idx.
Proof.
  unfold indexing. induction idx as [| i idx IH]; [done |].
  cbn. rewrite !list_lookup_fmap.
  destruct (data !! i) as [[a b] |]; cbn; by rewrite IH.
Qed.

Lemma subsample_off built f (w : world rng) :
  float_gt f 0 = false -> subsample built f w = (Ok tt, w).
Proof. intros Hf. unfold subsample. by rewrite Hf. Qed.

Lemma subsample_too_large built f (w : world rng) :
  float_gt f 0 = true -> float_lt f 1 = false ->
  subsample built f w =
  (Err (AssertionError (Some "Only use data_fraction for values smaller than 1.")), w).
Proof. intros Hg Hl. unfold subsample. by rewrite Hg, Hl. Qed.

Lemma subsample_no_samples t v f (w : world rng) :
  float_gt f 0 = true -> float_lt f 1 = true ->
  samples_at w t = None ->
  subsample (Some (t, v)) f w = (Err (AttributeError "samples"), w).
Proof.
  intros Hg Hl Hs. unfold subsample. rewrite Hg, Hl. run.
  by rewrite Hs.
Qed.

Lemma subsample_on t v f o data (w : world rng) :
  float_gt f 0 = true -> float_lt f 1 = true ->
  heap w !! t = Some o -> samples o = Some data ->
  subsample (Some (t, v)) f w =
  (Ok tt,
   {| heap := <[t := set_samples o (indexing data (kept_indices f data))]> (heap w);
      downloads := downloads w; np_random := np_random w |}).
Proof.
  intros Hg Hl Ho Hs. unfold subsample, kept_indices.
  rewrite Hg, Hl. run. unfold samples_at. rewrite Ho, Hs.
  destruct (stratified_shuffle_split _ _ _) as [[train test] g'].
  cbn. rewrite Ho. by rewrite zip_indexing.
Qed.

(** The second part writes to the training object only. *)
Lemma subsample_frame built f (w w' : world rng) r :
  subsample built f w = (r, w') ->
  downloads w' = downloads w /\ np_random w' = np_random w /\
  length (heap w') = length (heap w) /\
  forall l, fst <$> built <> Some l -> heap w' !! l = heap w !! l.
Proof.
  unfold subsample.
  destruct (float_gt f 0); [| by intros [= <- <-]].
  destruct (float_lt f 1); [| by intros [= <- <-]].
  run. destruct built as [[t v] |]; cbn; [| by intros [= <- <-]].
  destruct (samples_at w t) as [data |] eqn:Hs; [| by intros [= <- <-]].
  destruct (stratified_shuffle_split _ _ _) as [[train test] g'].
  intros [= <- <-]. cbn. repeat split.
  - destruct (heap w !! t); [by rewrite length_insert | done].
  - intros l Hl. destruct (heap w !! t); [| done].
    apply list_lookup_insert_ne. congruence.
Qed.

(** *** [prepare_datasets] as the sequence of its two parts *)

Lemma prepare_datasets_run d Tt Tv tp vp fmt dl f (w : world rng) :
  prepare_datasets d Tt Tv tp vp fmt dl f w =
  match build_datasets d Tt Tv tp vp fmt dl w with
  | (Ok built, wb) =>
      match subsample built f wb with
      | (Ok _, ws) =>
          match built with
          | Some tv => (Ok tv, ws)
          | None => (Err (UnboundLocalError "train_dataset"), ws)
          end
      | (Err e, ws) => (Err e, ws)
      end
  | (Err e, wb) => (Err e, wb)
  end.
Proof.
  unfold prepare_datasets.
  unfold mbind at 1. unfold M_bind at 1.
  destruct (build_datasets _ _ _ _ _ _ _ w) as [[built | e] wb]; [| done].
  unfold mbind at 1. unfold M_bind at 1.
  destruct (subsample built f wb) as [[[] | e] ws]; [| done].
  destruct built as [[t v] |]; reflexivity.
Qed.

Lemma prepare_datasets_unrecognized (d : string) Tt Tv tp vp fmt dl f (w : world rng) :
  d ∉ dataset_names ->
  prepare_datasets d Tt Tv tp vp fmt dl f w = (Err (AssertionError None), w).
Proof.
  intros Hd. rewrite prepare_datasets_run.
  by rewrite build_unrecognized.
Qed.

Lemma pipelines_keys (d : string) :
  is_Some (pipelines !! d) <-> d ∈ dataset_names.
Proof.
  unfold pipelines, dataset_names.
  rewrite !lookup_insert_is_Some', !elem_of_cons, elem_of_nil.
  pose proof (lookup_empty_is_Some (M := gmap string) (A := pipeline) d).
  intuition congruence.
Qed.

(** C3. A dataset name outside the seven recognized ones makes both
    [prepare_transforms] and [prepare_datasets] fail with the
    [AssertionError] of their assertion on the name (the one without a
    message), before anything is built; with a name among the seven,
    [prepare_transforms] returns its pair of pipelines and
    [prepare_datasets] never fails with that assertion. *)
Theorem name_assertion (d : string) :
  (d ∉ dataset_names ->
     prepare_transforms d = Err (AssertionError None) /\
     forall Tt Tv tp vp fmt dl f (w : world rng),
       prepare_datasets d Tt Tv tp vp fmt dl f w = (Err (AssertionError None), w))
  /\
  (d ∈ dataset_names ->
     (exists p, prepare_transforms d = Ok p) /\
     forall Tt Tv tp vp fmt dl f (w : world rng),
       (prepare_datasets d Tt Tv tp vp fmt dl f w).1 <> Err (AssertionError None)).
Proof.
  split; intros Hd.
  - split.
    + unfold prepare_transforms.
      destruct (pipelines !! d) as [p |] eqn:Hp; [| done].
      destruct Hd. apply pipelines_keys. by exists p.
    + intros. by apply prepare_datasets_unrecognized.
  - split.
    + apply pipelines_keys in Hd as [p Hp].
      unfold prepare_transforms. rewrite Hp. by eexists.
    + intros. rewrite prepare_datasets_run.
      destruct (build_shape d Tt Tv tp vp fmt dl w)
        as [[Hn _] | (_ & to & vo & dls & -> & _)]; [done |].
      unfold subsample.
      destruct (float_gt f 0); [| done].
      destruct (float_lt f 1); [| done].
      run. unfold samples_at. cbn.
      rewrite lookup_app_r by lia. rewrite Nat.sub_diag. cbn.
      destruct (samples to); [| done].
      by destruct (stratified_shuffle_split _ _ _) as [[? ?] ?].
Qed.

(** C2. When [data_fraction] is positive and at least 1,
    [prepare_datasets] fails with an [AssertionError]: the one on the name
    if the name is not recognized, the one on the fraction (with its
    message) otherwise.  When [data_fraction] is at most 0, or strictly
    between 0 and 1, the assertion on the fraction is never the outcome. *)
Theorem fraction_assertion d Tt Tv tp vp fmt dl f (w : world rng) :
  (float_gt f 0 = true -> float_ge f 1 = true ->
     exists w',
       prepare_datasets d Tt Tv tp vp fmt dl f w =
       (Err (AssertionError
               (if bool_decide (d ∈ dataset_names) then Some fraction_msg else None)),
        w'))
  /\
  (float_le f 0 = true \/ (float_gt f 0 = true /\ float_lt f 1 = true) ->
     (prepare_datasets d Tt Tv tp vp fmt dl f w).1
     <> Err (AssertionError (Some fraction_msg))).
Proof.
  split.
  - intros Hg Hge. apply float_ge_not_lt in Hge.
    rewrite prepare_datasets_run.
    destruct (build_shape d Tt Tv tp vp fmt dl w)
      as [[Hn ->] | (Hd & to & vo & dls & -> & _)].
    + rewrite (bool_decide_eq_false_2 _ Hn). by eexists.
    + rewrite (bool_decide_eq_true_2 _ Hd).
      rewrite subsample_too_large by done. by eexists.
  - intros Hf. rewrite prepare_datasets_run.
    destruct (build_shape d Tt Tv tp vp fmt dl w)
      as [[Hn ->] | (Hd & to & vo & dls & -> & _)]; [done |].
    unfold subsample.
    destruct Hf as [Hle | [Hg Hl]].
    + by rewrite (float_le_not_gt _ _ Hle).
    + rewrite Hg, Hl. run. unfold samples_at. cbn.
      rewrite lookup_app_r by lia. rewrite Nat.sub_diag. cbn.
      destruct (samples to); [| done].
      by destruct (stratified_shuffle_split _ _ _) as [[? ?] ?].
Qed.

(** *** The outcome of [prepare_datasets], branch by branch *)

Lemma lookup_appended {A} (h : list A) (a b : A) :
  (h ++ [a; b]) !! length h = Some a /\ (h ++ [a; b]) !! S (length h) = Some b.
Proof.
  split.
  - rewrite lookup_app_r by lia. by rewrite Nat.sub_diag.
  - rewrite lookup_app_r by lia. by replace (S (length h) - length h) with 1 by lia.
Qed.

Lemma insert_appended {A} (h : list A) (a b c : A) :
  <[length h := c]> (h ++ [a; b]) = h ++ [c; b].
Proof.
  rewrite insert_app_r_alt by lia. by rewrite Nat.sub_diag.
Qed.

Lemma prepare_folder_on d Tt Tv tp vp fmt dl f (w : world rng) :
  d ∈ folder_names -> float_gt f 0 = true -> float_lt f 1 = true ->
  prepare_datasets d Tt Tv tp vp fmt dl f w =
  (Ok (length (heap w), S (length (heap w))),
   {| heap := heap w ++
        [ folder_obj (path_of tp) Tt
            (indexing (make_dataset (path_of tp))
               (kept_indices f (make_dataset (path_of tp))));
          folder_obj (path_of vp) Tv (make_dataset (path_of vp)) ];
      downloads := downloads w;
      np_random := np_random w |}).
Proof.
  intros Hd Hg Hl. rewrite prepare_datasets_run, build_folder by done.
  erewrite subsample_on; [| done | done | apply lookup_appended | reflexivity].
  cbn. by rewrite insert_appended.
Qed.

Lemma prepare_folder_off d Tt Tv tp vp fmt dl f (w : world rng) :
  d ∈ folder_names -> float_gt f 0 = false ->
  prepare_datasets d Tt Tv tp vp fmt dl f w =
  (Ok (length (heap w), S (length (heap w))),
   {| heap := heap w ++
        [ folder_obj (path_of tp) Tt (make_dataset (path_of tp));
          folder_obj (path_of vp) Tv (make_dataset (path_of vp)) ];
      downloads := downloads w;
      np_random := np_random w |}).
Proof.
  intros Hd Hg. rewrite prepare_datasets_run, build_folder by done.
  by rewrite subsample_off.
Qed.

(** With an archive-backed class the second part finds no [samples]. *)
Lemma prepare_archive_on d Tt Tv tp vp fmt dl f (w : world rng) :
  d ∈ cifar_names \/ d = "stl10" ->
  float_gt f 0 = true -> float_lt f 1 = true ->
  exists wb,
    build_datasets d Tt Tv tp vp fmt dl w
      = (Ok (Some (length (heap w), S (length (heap w)))), wb) /\
    samples_at wb (length (heap w)) = None /\
    prepare_datasets d Tt Tv tp vp fmt dl f w = (Err (AttributeError "samples"), wb).
Proof.
  intros Hd Hg Hl. rewrite prepare_datasets_run.
  destruct Hd as [Hd | ->].
  - rewrite build_cifar by done. eexists. split; [reflexivity |].
    assert (Hs : forall o v dls g,
      @samples_at rng
        {| heap := heap w ++ [o; v]; downloads := dls; np_random := g |}
        (length (heap w)) = samples o).
    { intros. unfold samples_at. cbn. by rewrite (proj1 (lookup_appended _ _ _)). }
    split; [by rewrite Hs |].
    rewrite subsample_no_samples; [done | done | done |]. by rewrite Hs.
  - rewrite build_stl. eexists. split; [reflexivity |].
    assert (Hs : forall o v dls g,
      @samples_at rng
        {| heap := heap w ++ [o; v]; downloads := dls; np_random := g |}
        (length (heap w)) = samples o).
    { intros. unfold samples_at. cbn. by rewrite (proj1 (lookup_appended _ _ _)). }
    split; [by rewrite Hs |].
    rewrite subsample_no_samples; [done | done | done |]. by rewrite Hs.
Qed.

Lemma archive_names_split (d : string) :
  d ∈ archive_names <-> d ∈ cifar_names \/ d = "stl10".
Proof.
  unfold archive_names, cifar_names.
  rewrite !elem_of_cons, !elem_of_nil. tauto.
Qed.

Lemma archive_not_folder (d : string) : d ∈ archive_names -> d ∉ folder_names.
Proof.
  intros Ha Hf. apply archive_names_split in Ha as [Hc | ->].
  - by apply folder_not_cifar in Hf.
  - by apply folder_not_stl in Hf.
Qed.

(** C10. With [data_fraction] strictly between 0 and 1 and one of the
    names cifar10, cifar100, stl10, [prepare_datasets] builds the two
    objects and then raises the [AttributeError] for [samples], which the
    training object does not have; nothing is returned and nothing is
    subsampled.  Under the same fraction the call returns exactly when the
    name is one of the folder-per-class names. *)
Theorem archive_fraction_attribute_error (d : string) Tt Tv tp vp fmt dl f (w : world rng) :
  float_gt f 0 = true -> float_lt f 1 = true ->
  (d ∈ archive_names ->
     exists wb,
       build_datasets d Tt Tv tp vp fmt dl w
         = (Ok (Some (length (heap w), S (length (heap w)))), wb) /\
       samples_at wb (length (heap w)) = None /\
       prepare_datasets d Tt Tv tp vp fmt dl f w = (Err (AttributeError "samples"), wb))
  /\
  ((exists tv, (prepare_datasets d Tt Tv tp vp fmt dl f w).1 = Ok tv)
     <-> d ∈ folder_names).
Proof.
  intros Hg Hl. split.
  - intros Ha. apply prepare_archive_on; [by apply archive_names_split | done | done].
  - split.
    + intros [tv Hr].
      destruct (decide (d ∈ dataset_names)) as [Hd | Hd].
      * apply names_split in Hd as [Hc | [-> | Hf]]; [| | done].
        -- destruct (prepare_archive_on d Tt Tv tp vp fmt dl f w) as (wb & _ & _ & Hrun);
             [by left | done | done |].
           rewrite Hrun in Hr. discriminate.
        -- destruct (prepare_archive_on "stl10" Tt Tv tp vp fmt dl f w) as (wb & _ & _ & Hrun);
             [by right | done | done |].
           rewrite Hrun in Hr. discriminate.
      * rewrite prepare_datasets_unrecognized in Hr by done. discriminate.
    + intros Hf. rewrite prepare_folder_on by done. by eexists.
Qed.

(** With a class that has no [samples], the second part changes nothing,
    whatever its outcome. *)
Lemma subsample_no_samples_world t v f (w : world rng) :
  samples_at w t = None ->
  (subsample (Some (t, v)) f w).2 = w /\
  (float_gt f 0 = false -> (subsample (Some (t, v)) f w).1 = Ok tt).
Proof.
  intros Hs. destruct (float_gt f 0) eqn:Hg.
  - destruct (float_lt f 1) eqn:Hl.
    + by rewrite subsample_no_samples.
    + by rewrite subsample_too_large.
  - by rewrite subsample_off.
Qed.

(** C7. For the name stl10, [prepare_datasets] builds the training
    object from the split named train and asks for its download whatever
    the [download] flag says, and builds the validation object from the
    split named test, asking for its download only when the flag is set.
    Both objects are in the store whatever happens afterwards, and they
    are what the call returns when no fraction is requested. *)
Theorem stl10_split_and_download Tt Tv tp vp fmt dl f (w : world rng) :
  exists r w',
    prepare_datasets "stl10" Tt Tv tp vp fmt dl f w = (r, w') /\
    heap w' = heap w ++
      [ {| cls := STL10; root := path_of tp; split := SplitName "train";
           transform := Tt; samples := None |};
        {| cls := STL10; root := path_of vp; split := SplitName "test";
           transform := Tv; samples := None |} ] /\
    downloads w' = downloads w ++
      (STL10, path_of tp) :: (if dl then [(STL10, path_of vp)] else []) /\
    (float_gt f 0 = false -> r = Ok (length (heap w), S (length (heap w)))).
Proof.
  rewrite prepare_datasets_run, build_stl.
  match goal with |- context [subsample _ f ?wb] => set (wb0 := wb) end.
  destruct (subsample_no_samples_world (length (heap w)) (S (length (heap w))) f wb0)
    as [Hw Hr].
  { unfold samples_at, wb0. cbn. by rewrite (proj1 (lookup_appended _ _ _)). }
  destruct (subsample _ f wb0) as [[[] | e] ws]; cbn in Hw, Hr; subst ws.
  - eexists _, _. split; [reflexivity |]. by cbn.
  - eexists _, _. split; [reflexivity |]. cbn. repeat split.
    intros Hg. by specialize (Hr Hg).
Qed.

(** C9. For the names imagenet, imagenet100, custom and imagenet32,
    [prepare_datasets] builds both objects with the folder-per-class class
    from the two root paths; the [download] flag changes nothing in the
    outcome, and no download is asked for. *)
Theorem folder_branch_no_download (d : string) Tt Tv tp vp fmt dl f (w : world rng) :
  d ∈ folder_names ->
  prepare_datasets d Tt Tv tp vp fmt true f w
    = prepare_datasets d Tt Tv tp vp fmt false f w /\
  exists r w' s,
    prepare_datasets d Tt Tv tp vp fmt dl f w = (r, w') /\
    heap w' = heap w ++
      [ folder_obj (path_of tp) Tt s;
        folder_obj (path_of vp) Tv (make_dataset (path_of vp)) ] /\
    downloads w' = downloads w /\
    (float_gt f 0 = false ->
       s = make_dataset (path_of tp) /\
       r = Ok (length (heap w), S (length (heap w)))).
Proof.
  intros Hd. split.
  - by rewrite !prepare_datasets_run, !build_folder.
  - destruct (float_gt f 0) eqn:Hg; [destruct (float_lt f 1) eqn:Hl |].
    + rewrite prepare_folder_on by done.
      eexists _, _, _. split; [reflexivity |]. by cbn.
    + rewrite prepare_datasets_run, build_folder by done.
      rewrite subsample_too_large by done.
      eexists _, _, _. split; [reflexivity |]. by cbn.
    + rewrite prepare_folder_off by done.
      eexists _, _, _. split; [reflexivity |]. by cbn.
Qed.

(** C8. Two calls of [prepare_datasets], or of [prepare_data], that
    differ in the [data_format] argument only have the same outcome and
    leave the same state: the argument is accepted and never looked at. *)
Theorem data_format_ignored d Tt Tv tp vp dl f bs nw fmt1 fmt2 (w : world rng) :
  prepare_datasets d Tt Tv tp vp fmt1 dl f w
    = prepare_datasets d Tt Tv tp vp fmt2 dl f w /\
  prepare_data d tp vp fmt1 bs nw dl f w
    = prepare_data d tp vp fmt2 bs nw dl f w.
Proof. split; reflexivity. Qed.

(** C4. Whatever [data_fraction] is: once the first part of
    [prepare_datasets] has built the two objects, the validation object is
    a different object from the training one, and at the end of the call
    (returned or failed) it is exactly the object that was built, sample
    list included; a returning call hands out that very object.  When the
    first part fails, no validation object exists and the call fails the
    same way. *)
Theorem validation_untouched d Tt Tv tp vp fmt dl f (w : world rng) :
  match build_datasets d Tt Tv tp vp fmt dl w with
  | (Ok (Some (t, v)), wb) =>
      t <> v /\ is_Some (heap wb !! v) /\
      forall r w',
        prepare_datasets d Tt Tv tp vp fmt dl f w = (r, w') ->
        heap w' !! v = heap wb !! v /\
        samples_at w' v = samples_at wb v /\
        forall tv, r = Ok tv -> tv.2 = v
  | (Ok None, wb) => False
  | (Err e, wb) => prepare_datasets d Tt Tv tp vp fmt dl f w = (Err e, wb)
  end.
Proof.
  rewrite prepare_datasets_run.
  destruct (build_shape d Tt Tv tp vp fmt dl w)
    as [[Hn ->] | (Hd & to & vo & dls & -> & _)]; [done |].
  split; [lia |]. split.
  { cbn. rewrite (proj2 (lookup_appended _ _ _)). by eexists. }
  intros r w' Hrun.
  destruct (subsample _ f _) as [r0 ws] eqn:Hs.
  apply subsample_frame in Hs as (_ & _ & _ & Hframe).
  assert (Hv : heap ws !! S (length (heap w))
               = (heap w ++ [to; vo]) !! S (length (heap w))).
  { apply Hframe. cbn. intros [= Heq]. lia. }
  assert (Hsv : samples_at ws (S (length (heap w)))
                = samples_at
                    {| heap := heap w ++ [to; vo]; downloads := dls;
                       np_random := np_random w |} (S (length (heap w)))).
  { unfold samples_at. by rewrite Hv. }
  destruct r0 as [[] | e]; injection Hrun as <- <-.
  - split; [exact Hv |]. split; [exact Hsv |]. by intros tv [= <-].
  - split; [exact Hv |]. split; [exact Hsv |]. done.
Qed.

(** *** Selections *)



(** *** A fraction with an archive-backed class *)

Lemma prepare_cifar_on (d : string) Tt Tv tp vp fmt dl f (w : world rng) :
  d ∈ cifar_names -> float_gt f 0 = true -> float_lt f 1 = true ->
  let c := if String.eqb d "cifar10" then CIFAR10 else CIFAR100 in
  prepare_datasets d Tt Tv tp vp fmt dl f w =
  (Err (AttributeError "samples"),
   {| heap := heap w ++
        [ {| cls := c; root := path_of tp; split := TrainFlag true;
             transform := Tt; samples := None |};
          {| cls := c; root := path_of vp; split := TrainFlag false;
             transform := Tv; samples := None |} ];
      downloads := downloads w ++
        (if dl then [(c, path_of tp); (c, path_of vp)] else []);
      np_random := np_random w |}).
Proof.
  intros Hd Hg Hl c. rewrite prepare_datasets_run, build_cifar by done. fold c.
  rewrite subsample_no_samples; [done | done | done |].
  unfold samples_at. cbn. by rewrite (proj1 (lookup_appended _ _ _)).
Qed.

Lemma cifar10_is_cifar : "cifar10" ∈ cifar_names.
Proof. unfold cifar_names. rewrite !elem_of_cons. auto. Qed.

(** C1, the defect.  The block that subsamples runs for every name but
    reads [samples], which only the folder-per-class class has.  For
    cifar10 and a [data_fraction] of one half, with any library and from
    any state, [prepare_datasets] builds the two CIFAR10 objects and then
    raises the [AttributeError] for [samples]: nothing is returned, no
    sample list is replaced, and neither object has one. *)
Theorem fraction_on_cifar10_raises (Tt Tv : Compose) (tp vp fmt : option string)
    (dl : bool) (w : world rng) :
  let wb :=
    {| heap := heap w ++
         [ {| cls := CIFAR10; root := path_of tp; split := TrainFlag true;
              transform := Tt; samples := None |};
           {| cls := CIFAR10; root := path_of vp; split := TrainFlag false;
              transform := Tv; samples := None |} ];
       downloads := downloads w ++
         (if dl then [(CIFAR10, path_of tp); (CIFAR10, path_of vp)] else []);
       np_random := np_random w |} in
  prepare_datasets "cifar10" Tt Tv tp vp fmt dl (Fin 0.5) w
    = (Err (AttributeError "samples"), wb) /\
  samples_at wb (length (heap w)) = None /\
  samples_at wb (S (length (heap w))) = None.
Proof.
  cbv zeta. split.
  - exact (prepare_cifar_on "cifar10" Tt Tv tp vp fmt dl (Fin 0.5) w
             cifar10_is_cifar eq_refl eq_refl).
  - unfold samples_at. cbn.
    by rewrite (proj1 (lookup_appended _ _ _)), (proj2 (lookup_appended _ _ _)).
Qed.


(** * Further properties of the dataset builder *)

Local Abbreviation built_obj := (built_obj make_dataset).

(** The state the first part of [prepare_datasets] leaves for a
    recognized name. *)
Local Abbreviation built_world d Tt Tv tp vp dl w :=
  {| heap := heap w ++
       [ built_obj d (path_of tp) true Tt; built_obj d (path_of vp) false Tv ];
     downloads := downloads w ++ requested_downloads d dl (path_of tp) (path_of vp);
     np_random := np_random w |}.

Lemma cifar_not_folder (d : string) : d ∈ cifar_names -> d ∉ folder_names.
Proof. intros Hc Hf. by apply folder_not_cifar in Hf. Qed.

Lemma build_objects (d : string) Tt Tv tp vp fmt dl (w : world rng) :
  d ∈ dataset_names ->
  build_datasets d Tt Tv tp vp fmt dl w =
  (Ok (Some (length (heap w), S (length (heap w)))),
   built_world d Tt Tv tp vp dl w).
Proof.
  intros Hd. apply names_split in Hd as [Hc | [-> | Hf]].
  - rewrite build_cifar by done.
    unfold built_obj, requested_downloads, class_of.
    rewrite (bool_decide_eq_true_2 _ Hc).
    rewrite (bool_decide_eq_false_2 _ (cifar_not_folder d Hc)).
    rewrite (cifar_not_stl d Hc). reflexivity.
  - rewrite build_stl. reflexivity.
  - rewrite build_folder by done.
    unfold built_obj, requested_downloads, class_of.
    rewrite (bool_decide_eq_true_2 _ Hf).
    rewrite (bool_decide_eq_false_2 _ (folder_not_cifar d Hf)).
    rewrite (folder_not_stl d Hf). by rewrite app_nil_r.
Qed.

(** The whole of [prepare_datasets] for a recognized name, case by case. *)
Lemma prepare_recognized (d : string) Tt Tv tp vp fmt dl f (w : world rng) :
  d ∈ dataset_names ->
  prepare_datasets d Tt Tv tp vp fmt dl f w =
  let t := length (heap w) in
  let wb := built_world d Tt Tv tp vp dl w in
  if float_gt f 0 then
    if float_lt f 1 then
      if bool_decide (d ∈ folder_names) then
        (Ok (t, S t),
         {| heap := heap w ++
              [ folder_obj (path_of tp) Tt
                  (indexing (make_dataset (path_of tp))
                     (kept_indices f (make_dataset (path_of tp))));
                built_obj d (path_of vp) false Tv ];
            downloads := downloads wb; np_random := np_random w |})
      else (Err (AttributeError "samples"), wb)
    else (Err (AssertionError (Some fraction_msg)), wb)
  else (Ok (t, S t), wb).
Proof.
  intros Hd. cbv zeta.
  rewrite prepare_datasets_run, build_objects by done.
  destruct (float_gt f 0) eqn:Hg; [| by rewrite subsample_off].
  destruct (float_lt f 1) eqn:Hl; [| by rewrite subsample_too_large].
  destruct (decide (d ∈ folder_names)) as [Hf | Hf].
  - rewrite (bool_decide_eq_true_2 _ Hf).
    erewrite subsample_on; [| done | done | apply lookup_appended |].
    2:{ unfold built_obj. cbn. by rewrite (bool_decide_eq_true_2 _ Hf). }
    cbn. rewrite insert_appended. unfold built_obj at 1, class_of. cbn.
    by rewrite (bool_decide_eq_true_2 _ Hf).
  - rewrite (bool_decide_eq_false_2 _ Hf).
    rewrite subsample_no_samples; [done | done | done |].
    unfold samples_at. cbn. rewrite (proj1 (lookup_appended _ _ _)).
    unfold built_obj. cbn. by rewrite (bool_decide_eq_false_2 _ Hf).
Qed.

Lemma folder_in_names (d : string) : d ∈ folder_names -> d ∈ dataset_names.
Proof. intros Hf. apply names_split. auto. Qed.

Lemma not_folder_archive (d : string) :
  d ∈ dataset_names -> d ∉ folder_names -> d ∈ archive_names.
Proof.
  intros Hd Hf. apply archive_names_split.
  apply names_split in Hd as [Hc | [-> | Hf']]; auto. done.
Qed.

(** X1. [prepare_datasets] returns only for a recognized name with a
    fraction that is either not greater than 0 (NaN included) or below 1
    with a folder-per-class name, and what it returns is then the pair of
    the two objects this call created, the training one first.  It never
    fails with a [KeyError] from the class lookup nor with an
    [UnboundLocalError]: every name that passes the assertion is taken by
    a branch of the [if]/[elif] chain, which assigns both variables. *)
Theorem prepare_datasets_returns_only_if (d : string) Tt Tv tp vp fmt dl f
    (w : world rng) :
  let r := (prepare_datasets d Tt Tv tp vp fmt dl f w).1 in
  (forall tv, r = Ok tv ->
     (d ∈ dataset_names) /\
     (float_gt f 0 = false \/ (float_lt f 1 = true /\ d ∈ folder_names)) /\
     tv = (length (heap w), S (length (heap w))))
  /\
  (forall key, r <> Err (KeyError key)) /\
  (forall var, r <> Err (UnboundLocalError var)).
Proof.
  cbv zeta. destruct (decide (d ∈ dataset_names)) as [Hd | Hd].
  - rewrite prepare_recognized by done. cbv zeta.
    destruct (float_gt f 0) eqn:Hg; [destruct (float_lt f 1) eqn:Hl |].
    + destruct (decide (d ∈ folder_names)) as [Hf | Hf].
      * rewrite (bool_decide_eq_true_2 _ Hf). cbn.
        split; [| done]. intros tv [= <-]. auto.
      * rewrite (bool_decide_eq_false_2 _ Hf). cbn. done.
    + cbn. done.
    + cbn. split; [| done]. intros tv [= <-]. auto.
  - rewrite prepare_datasets_unrecognized by done. cbn. done.
Qed.

(** X2. [prepare_datasets] only adds to the store: every object that was
    there before the call is unchanged after it, returned or failed; the
    store has two more objects for a recognized name and none otherwise;
    and numpy's global generator is where it was. *)
Theorem prepare_datasets_frame (d : string) Tt Tv tp vp fmt dl f (w : world rng) :
  let w' := (prepare_datasets d Tt Tv tp vp fmt dl f w).2 in
  np_random w' = np_random w /\
  length (heap w')
    = length (heap w) + (if bool_decide (d ∈ dataset_names) then 2 else 0) /\
  forall l, l < length (heap w) -> heap w' !! l = heap w !! l.
Proof.
  cbv zeta. destruct (decide (d ∈ dataset_names)) as [Hd | Hd].
  - rewrite (bool_decide_eq_true_2 _ Hd), prepare_recognized by done. cbv zeta.
    destruct (float_gt f 0); [destruct (float_lt f 1);
      [destruct (bool_decide (d ∈ folder_names)) |] |]; cbn;
      (split; [done |]); (split; [by rewrite length_app |]);
      intros l Hl; by rewrite lookup_app_l.
  - rewrite (bool_decide_eq_false_2 _ Hd), prepare_datasets_unrecognized by done.
    cbn. split; [done |]. split; [lia | done].
Qed.

(** X3. The fraction is checked after the datasets are built: with a
    recognized name and a positive fraction of 1 or more, the call fails
    with the assertion on the fraction in the very state the first part
    left, so both objects are in the store and the downloads of the name
    have been asked for. *)
Theorem fraction_checked_after_build (d : string) Tt Tv tp vp fmt dl f (w : world rng) :
  d ∈ dataset_names -> float_gt f 0 = true -> float_ge f 1 = true ->
  let wb := (build_datasets d Tt Tv tp vp fmt dl w).2 in
  prepare_datasets d Tt Tv tp vp fmt dl f w
    = (Err (AssertionError (Some fraction_msg)), wb) /\
  length (heap wb) = length (heap w) + 2 /\
  downloads wb = downloads w ++ requested_downloads d dl (path_of tp) (path_of vp).
Proof.
  intros Hd Hg Hge. apply float_ge_not_lt in Hge. cbv zeta.
  rewrite prepare_recognized, build_objects by done. cbv zeta.
  rewrite Hg, Hge. cbn. split; [done |]. split; [by rewrite length_app | done].
Qed.

(** X4. For the names cifar10 and cifar100, [prepare_datasets] builds
    both objects with the class of the upper-cased name, the training one
    with [train=True] and the validation one with [train=False]; the
    [download] flag governs both downloads alike, the training root
    first.  Both objects are in the store whatever happens afterwards,
    and they are what the call returns when no fraction is requested. *)
Theorem cifar_train_flag_and_download (d : string) Tt Tv tp vp fmt dl f (w : world rng) :
  d ∈ cifar_names ->
  let c := if String.eqb d "cifar10" then CIFAR10 else CIFAR100 in
  torchvision_datasets !! upper d = Some c /\
  exists r w',
    prepare_datasets d Tt Tv tp vp fmt dl f w = (r, w') /\
    heap w' = heap w ++
      [ {| cls := c; root := path_of tp; split := TrainFlag true;
           transform := Tt; samples := None |};
        {| cls := c; root := path_of vp; split := TrainFlag false;
           transform := Tv; samples := None |} ] /\
    downloads w' = downloads w ++
      (if dl then [(c, path_of tp); (c, path_of vp)] else []) /\
    (float_gt f 0 = false -> r = Ok (length (heap w), S (length (heap w)))).
Proof.
  intros Hc c. split; [by apply cifar_class |].
  rewrite prepare_datasets_run, build_cifar by done. fold c.
  match goal with |- context [subsample _ f ?wb] => set (wb0 := wb) end.
  destruct (subsample_no_samples_world (length (heap w)) (S (length (heap w))) f wb0)
    as [Hw Hr].
  { unfold samples_at, wb0. cbn. by rewrite (proj1 (lookup_appended _ _ _)). }
  destruct (subsample _ f wb0) as [[[] | e] ws]; cbn in Hw, Hr; subst ws.
  - eexists _, _. split; [reflexivity |]. by cbn.
  - eexists _, _. split; [reflexivity |]. cbn. repeat split.
    intros Hg. by specialize (Hr Hg).
Qed.

(** X5. Without the [download] flag the only download [prepare_datasets]
    ever asks for is the one of the stl10 training split: for every other
    name, recognized or not, and whatever the outcome, no download is
    asked for. *)
Theorem no_download_without_flag (d : string) Tt Tv tp vp fmt f (w : world rng) :
  downloads (prepare_datasets d Tt Tv tp vp fmt false f w).2
  = downloads w ++ (if String.eqb d "stl10" then [(STL10, path_of tp)] else []).
Proof.
  destruct (decide (d ∈ dataset_names)) as [Hd | Hd].
  - rewrite prepare_recognized by done. cbv zeta.
    assert (Hreq : requested_downloads d false (path_of tp) (path_of vp)
                   = if String.eqb d "stl10" then [(STL10, path_of tp)] else []).
    { unfold requested_downloads.
      destruct (decide (d ∈ cifar_names)) as [Hc | Hc].
      - by rewrite (bool_decide_eq_true_2 _ Hc), (cifar_not_stl d Hc).
      - by rewrite (bool_decide_eq_false_2 _ Hc). }
    destruct (float_gt f 0); [destruct (float_lt f 1);
      [destruct (bool_decide (d ∈ folder_names)) |] |]; cbn; by rewrite Hreq.
  - rewrite prepare_datasets_unrecognized by done. cbn.
    destruct (String.eqb_spec d "stl10") as [-> | _]; [| by rewrite app_nil_r].
    destruct Hd. apply names_split. auto.
Qed.

(** *** Selections without repetition *)

Lemma omap_submseteq {A B} (g : A -> option B) (l k : list A) :
  l ⊆+ k -> omap g l ⊆+ omap g k.
Proof.
  intros Hl. apply submseteq_Permutation in Hl as [k' Hk].
  rewrite Hk, omap_app. by apply submseteq_inserts_r.
Qed.

Lemma indexing_all_from {A} (pre a : list A) :
  indexing (pre ++ a) (seq (length pre) (length a)) = a.
Proof.
  unfold indexing. revert pre. induction a as [| x a IH]; intros pre; [done |].
  cbn. rewrite lookup_app_r by lia. rewrite Nat.sub_diag. cbn. f_equal.
  specialize (IH (pre ++ [x])).
  rewrite <- app_assoc, length_app, Nat.add_1_r in IH. exact IH.
Qed.

Lemma indexing_all {A} (a : list A) : indexing a (seq 0 (length a)) = a.
Proof. exact (indexing_all_from [] a). Qed.

Lemma indexing_submseteq {A} (a : list A) (idx : list nat) :
  NoDup idx -> Forall (fun i => i < length a) idx -> indexing a idx ⊆+ a.
Proof.
  intros Hnd Hrange.
  rewrite <- (indexing_all a) at 2. unfold indexing.
  apply omap_submseteq, NoDup_submseteq; [done |].
  intros i Hi. rewrite Forall_forall in Hrange.
  apply elem_of_seq. specialize (Hrange i Hi). lia.
Qed.

(** X6. Subsampling never repeats or invents an entry: for a
    folder-per-class name and a fraction strictly between 0 and 1, when
    the training indices the split returns are distinct positions of the
    list, the new sample list of the training object is, up to order, a
    part of the list read from the folder; it is no longer than that
    list, and free of repetitions when that list is. *)
Theorem subsample_is_part_of_folder (d : string) Tt Tv tp vp fmt dl (q : Q) (w : world rng) :
  d ∈ folder_names -> (0 < q)%Q -> (q < 1)%Q ->
  let data := make_dataset (path_of tp) in
  let idx :=
    (stratified_shuffle_split (RandomState 42) (Fin q) (map snd data)).1.1 in
  NoDup idx -> Forall (fun i => i < length data) idx ->
  exists tv w' new,
    prepare_datasets d Tt Tv tp vp fmt dl (Fin q) w = (Ok tv, w') /\
    samples_at w' tv.1 = Some new /\
    new ⊆+ data /\
    length new <= length data /\
    (NoDup data -> NoDup new).
Proof.
  intros Hd Hq0 Hq1 data idx Hnd Hrange.
  rewrite (prepare_folder_on d Tt Tv tp vp fmt dl (Fin q) w Hd
             (float_gt_Fin q Hq0) (float_lt_Fin q Hq1)).
  eexists _, _, _. split; [reflexivity |].
  split.
  { unfold samples_at. cbn. by rewrite (proj1 (lookup_appended _ _ _)). }
  assert (Hsub : indexing data idx ⊆+ data) by by apply indexing_submseteq.
  split; [exact Hsub |]. split; [by apply submseteq_length |].
  intros Hdata. apply submseteq_Permutation in Hsub as [k Hk].
  rewrite Hk in Hdata. by apply NoDup_app in Hdata as [? _].
Qed.


(** X16. Whenever [prepare_datasets] returns with a fraction greater
    than 0, the training object it created (at the position this call
    allocated, with its root and transform) holds, in place of the list
    read from the folder, exactly the entries of that list at the
    training indices of the stratified split called with that fraction as
    [train_size], the labels of the list as [stratify] and the seed 42.
    So any other returning call with the same name, training path and
    fraction ends with the same list, whatever the store, the state of the
    global generator and the other arguments it starts from. *)
Theorem subsample_is_seeded_selection (d : string) Tt Tv tp vp fmt dl f
    (w w' : world rng) tv :
  float_gt f 0 = true ->
  prepare_datasets d Tt Tv tp vp fmt dl f w = (Ok tv, w') ->
  let data := make_dataset (path_of tp) in
  let new :=
    indexing data (stratified_shuffle_split (RandomState 42) f (map snd data)).1.1 in
  tv.1 = length (heap w) /\
  heap w' !! tv.1 = Some (folder_obj (path_of tp) Tt new) /\
  forall Tt2 Tv2 vp2 fmt2 dl2 (w2 w2' : world rng) tv2,
    prepare_datasets d Tt2 Tv2 tp vp2 fmt2 dl2 f w2 = (Ok tv2, w2') ->
    samples_at w2' tv2.1 = Some new.
Proof.
  intros Hg Hrun data new.
  assert (Hall : forall Tt0 Tv0 vp0 fmt0 dl0 (w0 w0' : world rng) tv0,
    prepare_datasets d Tt0 Tv0 tp vp0 fmt0 dl0 f w0 = (Ok tv0, w0') ->
    tv0.1 = length (heap w0) /\
    heap w0' !! tv0.1 = Some (folder_obj (path_of tp) Tt0 new)).
  { intros Tt0 Tv0 vp0 fmt0 dl0 w0 w0' tv0 Hrun0.
    destruct (decide (d ∈ dataset_names)) as [Hd | Hd];
      [| by rewrite prepare_datasets_unrecognized in Hrun0].
    rewrite prepare_recognized in Hrun0 by done. cbv zeta in Hrun0.
    rewrite Hg in Hrun0.
    destruct (float_lt f 1); [| done].
    destruct (bool_decide (d ∈ folder_names)); [| done].
    injection Hrun0 as <- <-. cbn. split; [done |].
    exact (proj1 (lookup_appended _ _ _)). }
  destruct (Hall _ _ _ _ _ _ _ _ Hrun) as [Ht Hobj].
  split; [exact Ht |]. split; [exact Hobj |].
  intros Tt2 Tv2 vp2 fmt2 dl2 w2 w2' tv2 Hrun2.
  destruct (Hall _ _ _ _ _ _ _ _ Hrun2) as [_ Hobj2].
  unfold samples_at. by rewrite Hobj2.
Qed.

(** *** The top-level function *)

Lemma prepare_data_run d tp vp fmt bs nw dl f (w : world rng) :
  prepare_data d tp vp fmt bs nw dl f w =
  match pipelines !! d with
  | None => (Err (AssertionError None), w)
  | Some p =>
      match prepare_datasets d (T_train p) (T_val p) tp vp fmt dl f w with
      | (Ok (t, v), w') => (Ok (prepare_dataloaders t v bs nw), w')
      | (Err e, w') => (Err e, w')
      end
  end.
Proof.
  unfold prepare_data, prepare_transforms.
  destruct (pipelines !! d) as [p |]; [| reflexivity].
  unfold mbind at 1. unfold M_bind at 1. cbn.
  unfold mbind at 1. unfold M_bind at 1.
  destruct (prepare_datasets d (T_train p) (T_val p) tp vp fmt dl f w)
    as [[[t v] | e] w']; reflexivity.
Qed.

(** X8. [prepare_data] stops at the first check that fails: with an
    unrecognized name it fails with the assertion of
    [prepare_transforms] and leaves the state as it was (nothing built,
    nothing downloaded).  And it returns loaders only for a recognized
    name with a fraction that is either not greater than 0 or below 1
    with a folder-per-class name. *)
Theorem prepare_data_returns_only_if (d : string) tp vp fmt bs nw dl f (w : world rng) :
  (d ∉ dataset_names ->
     prepare_data d tp vp fmt bs nw dl f w = (Err (AssertionError None), w))
  /\
  (forall ld, (prepare_data d tp vp fmt bs nw dl f w).1 = Ok ld ->
     (d ∈ dataset_names) /\
     (float_gt f 0 = false \/ (float_lt f 1 = true /\ d ∈ folder_names))).
Proof.
  rewrite prepare_data_run. split.
  - intros Hd. destruct (pipelines !! d) as [p |] eqn:Hp; [| done].
    destruct Hd. apply pipelines_keys. by eexists.
  - intros ld. destruct (pipelines !! d) as [p |] eqn:Hp; [| done].
    assert (Hd : d ∈ dataset_names) by (apply pipelines_keys; by eexists).
    rewrite prepare_recognized by done. cbv zeta.
    destruct (float_gt f 0) eqn:Hg; [destruct (float_lt f 1) eqn:Hl |].
    + destruct (decide (d ∈ folder_names)) as [Hf | Hf].
      * rewrite (bool_decide_eq_true_2 _ Hf). cbn. auto.
      * rewrite (bool_decide_eq_false_2 _ Hf). cbn. done.
    + cbn. done.
    + cbn. auto.
Qed.

(** X9. The loaders [prepare_data] returns are wired to the right
    objects: the training loader's dataset and the validation loader's
    dataset are two different objects created by this call, of the class
    of the name, on the training and the validation root; the first
    carries the training pipeline of the name and the second its
    validation pipeline; and both loaders have the requested batch size
    and worker count. *)
Theorem prepare_data_wiring (d : string) tp vp fmt bs nw dl f (w w' : world rng) tl vl :
  prepare_data d tp vp fmt bs nw dl f w = (Ok (tl, vl), w') ->
  exists p to vo,
    pipelines !! d = Some p /\
    heap w' !! dataset tl = Some to /\ heap w' !! dataset vl = Some vo /\
    dataset tl <> dataset vl /\
    length (heap w) <= dataset tl /\ length (heap w) <= dataset vl /\
    cls to = class_of d /\ cls vo = class_of d /\
    root to = path_of tp /\ root vo = path_of vp /\
    transform to = T_train p /\ transform vo = T_val p /\
    batch_size tl = bs /\ batch_size vl = bs /\
    num_workers tl = nw /\ num_workers vl = nw.
Proof.
  rewrite prepare_data_run.
  destruct (pipelines !! d) as [p |] eqn:Hp; [| done].
  assert (Hd : d ∈ dataset_names) by (apply pipelines_keys; by eexists).
  rewrite prepare_recognized by done. cbv zeta.
  destruct (float_gt f 0); [destruct (float_lt f 1);
    [destruct (decide (d ∈ folder_names)) as [Hf | Hf];
       [rewrite (bool_decide_eq_true_2 _ Hf) | rewrite (bool_decide_eq_false_2 _ Hf)]
    | ] |]; try done.
  - intros [= <- <- <-]. exists p. eexists _, _. split; [done |]. cbn.
    split; [apply lookup_appended |]. split; [apply lookup_appended |].
    unfold built_obj, class_of. cbn.
    rewrite (bool_decide_eq_true_2 _ Hf).
    repeat split; try done; lia.
  - intros [= <- <- <-]. exists p. eexists _, _. split; [done |]. cbn.
    split; [apply lookup_appended |]. split; [apply lookup_appended |].
    repeat split; try done; lia.
Qed.

End Properties.

(** * The pipelines *)

Section Pipelines.

Lemma prepare_transforms_names (d : string) p :
  prepare_transforms d = Ok p -> d ∈ dataset_names.
Proof.
  unfold prepare_transforms. intros Hp.
  assert (Hsome : is_Some (pipelines !! d))
    by (destruct (pipelines !! d) as [p' |]; [by exists p' | done]).
  clear Hp. revert Hsome. unfold pipelines, dataset_names.
  rewrite !lookup_insert_is_Some', !elem_of_cons, elem_of_nil.
  pose proof (lookup_empty_is_Some (M := gmap string) (A := pipeline) d).
  intuition congruence.
Qed.

(** Splits a goal about a recognized name into the seven names and
    evaluates [prepare_transforms] on each. *)
Ltac by_name Hp :=
  let Hd := fresh "Hd" in
  pose proof (prepare_transforms_names _ _ Hp) as Hd;
  unfold dataset_names in Hd;
  repeat (apply elem_of_cons in Hd as [-> | Hd]);
  [.. | by apply elem_of_nil in Hd];
  vm_compute in Hp; injection Hp as <- <-.

Ltac not_cifar :=
  let Hc := fresh in
  intros Hc; unfold cifar_names in Hc;
  repeat (apply elem_of_cons in Hc as [Hc | Hc]; [discriminate |]);
  by apply elem_of_nil in Hc.

Ltac is_cifar :=
  let Hn := fresh in
  intros Hn; exfalso; apply Hn; unfold cifar_names;
  rewrite !elem_of_cons; solve [auto].

(** X10. For every recognized name, the validation pipeline
    [prepare_transforms] returns has no random operation, and the
    training pipeline is a random resized crop to the side of the name
    (with scale 0.08 to 1) and a random horizontal flip, followed by
    operations that are not random. *)
Theorem validation_pipeline_not_random (d : string) (Tt Tv : Compose) :
  prepare_transforms d = Ok (Tt, Tv) ->
  forallb (fun op => negb (is_random op)) Tv = true /\
  exists rest,
    Tt = RandomResizedCrop (crop_size d) (0.08, 1.0)%Q :: RandomHorizontalFlip :: rest /\
    forallb (fun op => negb (is_random op)) rest = true.
Proof.
  intros Hp. by_name Hp; (split; [reflexivity |]);
    eexists; (split; [vm_compute; reflexivity | reflexivity]).
Qed.

(** X11. For every recognized name, the two pipelines normalize exactly
    once and with the same mean and standard deviation, and in both the
    normalization is the last operation, right after the conversion to a
    tensor. *)
Theorem same_normalization (d : string) (Tt Tv : Compose) :
  prepare_transforms d = Ok (Tt, Tv) ->
  exists mean std,
    omap normalization Tt = [(mean, std)] /\
    omap normalization Tv = [(mean, std)] /\
    [ToTensor; Normalize mean std] `suffix_of` Tt /\
    [ToTensor; Normalize mean std] `suffix_of` Tv.
Proof.
  intros Hp. by_name Hp; eexists _, _;
    (split; [reflexivity |]); (split; [reflexivity |]);
    split;
      first [by exists [] | by eexists [_] | by eexists [_; _] | by eexists [_; _; _]].
Qed.

(** X12. For every recognized name, the training pipeline turns an image
    of any size into a square of the side of the name (32 for cifar10,
    cifar100 and imagenet32, 96 for stl10, 224 for the others).  The
    validation pipeline does the same for every name but cifar10 and
    cifar100, whose validation pipeline leaves the size of the image as
    it is. *)
Theorem pipeline_output_size (d : string) (Tt Tv : Compose) :
  prepare_transforms d = Ok (Tt, Tv) ->
  (forall hw, out_size Tt hw = (crop_size d, crop_size d)) /\
  (d ∉ cifar_names -> forall hw, out_size Tv hw = (crop_size d, crop_size d)) /\
  (d ∈ cifar_names -> forall hw, out_size Tv hw = hw).
Proof.
  intros Hp. by_name Hp;
    (split; [by intros [h w] |]);
    (split; [first [is_cifar | by intros _ [h w]]
            | first [not_cifar | by intros _ [h w]]]).
Qed.

End Pipelines.

(** * The loaders *)

Section Loaders.

(** With [drop_last], only complete batches come out, whatever was
    already collected. *)
Lemma batch_sampler_drop_full (bs : Z) (idx acc : list nat) :
  Forall (fun b => Z.of_nat (length b) = bs) (batch_sampler bs true acc idx).
Proof.
  revert acc. induction idx as [| i idx IH]; intros acc; cbn.
  - rewrite andb_false_r. constructor.
  - destruct (Z.eqb_spec (Z.of_nat (length (acc ++ [i]))) bs) as [Heq | Hne].
    + constructor; [exact Heq | apply IH].
    + apply IH.
Qed.

(** Without [drop_last], when the items do not fill the batches exactly,
    the last batch is the incomplete one. *)
Lemma batch_sampler_keep_last (bs : Z) (idx acc : list nat) :
  (0 < bs)%Z -> (Z.of_nat (length acc) < bs)%Z ->
  (Z.of_nat (length acc + length idx) mod bs <> 0)%Z ->
  exists b,
    last (batch_sampler bs false acc idx) = Some b /\
    Z.of_nat (length b) = (Z.of_nat (length acc + length idx) mod bs)%Z.
Proof.
  intros Hbs. revert acc. induction idx as [| i idx IH]; intros acc Hacc Hmod; cbn.
  - rewrite Nat.add_0_r in *. rewrite Z.mod_small in * by lia.
    destruct (Nat.eqb_spec (length acc) 0) as [H0 | H0]; [lia |].
    cbn. by exists acc.
  - assert (Hlen : length (acc ++ [i]) = S (length acc))
      by (rewrite length_app; cbn; lia).
    destruct (Z.eqb_spec (Z.of_nat (length (acc ++ [i]))) bs) as [Heq | Hne].
    + assert (Hrest : (Z.of_nat (length acc + S (length idx)) mod bs
                       = Z.of_nat (length idx) mod bs)%Z).
      { replace (Z.of_nat (length acc + S (length idx)))
          with (Z.of_nat (length idx) + 1 * bs)%Z by lia.
        apply Z_mod_plus_full. }
      cbn in Hmod. rewrite Hrest in *.
      destruct (IH []) as (b & Hb & Hlb); [cbn; lia | done |].
      exists b. split; [| exact Hlb].
      rewrite last_cons. cbn in Hb. by rewrite Hb.
    + assert (Hsum : length acc + S (length idx) = length (acc ++ [i]) + length idx)
        by lia.
      cbn in Hmod. rewrite Hsum in *.
      apply IH; [lia | done].
Qed.

(** C6. [prepare_dataloaders] configures the training loader over the
    training dataset with the given batch size and worker count,
    shuffling, pinned memory and [drop_last]; and the validation loader
    over the validation dataset with the same batch size, worker count and
    pinned memory, without shuffling and without [drop_last].  Hence every
    batch of a pass of the training loader is complete, in whatever order
    the indices are drawn, while the validation loader, over a dataset
    whose size is not a multiple of a positive batch size, ends on a batch
    of the remaining items, fewer than the batch size. *)
Theorem loader_policies (train_dataset val_dataset : loc) (bs nw : Z) :
  let tl := (prepare_dataloaders train_dataset val_dataset bs nw).1 in
  let vl := (prepare_dataloaders train_dataset val_dataset bs nw).2 in
  (dataset tl = train_dataset /\ batch_size tl = bs /\ num_workers tl = nw /\
   shuffle tl = true /\ drop_last tl = true /\ pin_memory tl = true) /\
  (dataset vl = val_dataset /\ batch_size vl = bs /\ num_workers vl = nw /\
   shuffle vl = false /\ drop_last vl = false /\ pin_memory vl = true) /\
  (forall n perm,
     Forall (fun b => Z.of_nat (length b) = bs) (batches tl n perm)) /\
  (forall n perm,
     (0 < bs)%Z -> (Z.of_nat n mod bs <> 0)%Z ->
     exists b,
       last (batches vl n perm) = Some b /\
       Z.of_nat (length b) = (Z.of_nat n mod bs)%Z /\
       (Z.of_nat (length b) < bs)%Z).
Proof.
  cbn. split; [done |]. split; [done |]. split.
  - intros n perm. apply batch_sampler_drop_full.
  - intros n perm Hbs Hmod. unfold batches, sampler. cbn.
    destruct (batch_sampler_keep_last bs (seq 0 n) [] Hbs) as (b & Hb & Hlb).
    + cbn. lia.
    + cbn. by rewrite length_seq.
    + cbn in Hlb. rewrite length_seq in Hlb.
      exists b. split; [done |]. split; [done |].
      rewrite Hlb. by apply Z.mod_pos_bound.
Qed.

(** Without [drop_last] the batches, put end to end, are what was
    collected followed by the indices walked. *)
Lemma batch_sampler_keep_concat (bs : Z) (idx acc : list nat) :
  concat (batch_sampler bs false acc idx) = acc ++ idx.
Proof.
  revert acc. induction idx as [| i idx IH]; intros acc; cbn.
  - rewrite andb_true_r, app_nil_r.
    destruct acc; [done |]. cbn. by rewrite app_nil_r.
  - destruct (Z.eqb_spec (Z.of_nat (length (acc ++ [i]))) bs) as [Heq | Hne].
    + cbn. rewrite IH. cbn. by rewrite <- app_assoc.
    + rewrite IH. by rewrite <- app_assoc.
Qed.

Lemma batch_sampler_keep_sizes (bs : Z) (idx acc : list nat) :
  (0 < bs)%Z -> (Z.of_nat (length acc) < bs)%Z ->
  Forall (fun b => (0 < Z.of_nat (length b) <= bs)%Z) (batch_sampler bs false acc idx).
Proof.
  intros Hbs. revert acc. induction idx as [| i idx IH]; intros acc Hacc; cbn.
  - rewrite andb_true_r.
    destruct (Nat.eqb_spec (length acc) 0) as [H0 | H0]; cbn; [constructor |].
    constructor; [lia | constructor].
  - assert (Hlen : length (acc ++ [i]) = S (length acc))
      by (rewrite length_app; cbn; lia).
    destruct (Z.eqb_spec (Z.of_nat (length (acc ++ [i]))) bs) as [Heq | Hne].
    + constructor; [lia | apply IH; cbn; lia].
    + apply IH. lia.
Qed.

(** With [drop_last] the batches, put end to end, are a beginning of what
    was collected followed by the indices walked; what is left over is
    the remainder of the division by the batch size. *)
Lemma batch_sampler_drop_prefix (bs : Z) (idx acc : list nat) :
  exists rest,
    acc ++ idx = concat (batch_sampler bs true acc idx) ++ rest /\
    ((0 < bs)%Z -> (Z.of_nat (length acc) < bs)%Z ->
     Z.of_nat (length rest) = (Z.of_nat (length acc + length idx) mod bs)%Z).
Proof.
  revert acc. induction idx as [| i idx IH]; intros acc; cbn.
  - rewrite andb_false_r. exists acc. cbn. rewrite app_nil_r. split; [done |].
    intros Hbs Hacc. rewrite Nat.add_0_r. by rewrite Z.mod_small by lia.
  - assert (Hlen : length (acc ++ [i]) = S (length acc))
      by (rewrite length_app; cbn; lia).
    destruct (Z.eqb_spec (Z.of_nat (length (acc ++ [i]))) bs) as [Heq | Hne].
    + destruct (IH []) as (rest & Hcat & Hrest). exists rest. split.
      * cbn. cbn in Hcat. rewrite <- !app_assoc, <- Hcat. done.
      * intros Hbs Hacc. cbn in Hrest. rewrite Hrest by lia.
        replace (Z.of_nat (length acc + S (length idx)))
          with (Z.of_nat (length idx) + 1 * bs)%Z by lia.
        by rewrite Z_mod_plus_full.
    + destruct (IH (acc ++ [i])) as (rest & Hcat & Hrest). exists rest. split.
      * rewrite <- Hcat. by rewrite <- app_assoc.
      * intros Hbs Hacc. rewrite Hrest by lia. f_equal. lia.
Qed.

(** The number of batches of one pass. *)
Lemma batch_sampler_count (bs : Z) (drop : bool) (idx acc : list nat) :
  (0 < bs)%Z -> (Z.of_nat (length acc) < bs)%Z ->
  Z.of_nat (length (batch_sampler bs drop acc idx))
  = if drop then (Z.of_nat (length acc + length idx) / bs)%Z
    else ((Z.of_nat (length acc + length idx) + bs - 1) / bs)%Z.
Proof.
  intros Hbs. revert acc. induction idx as [| i idx IH]; intros acc Hacc; cbn.
  - rewrite Nat.add_0_r. destruct drop; cbn.
    + rewrite andb_false_r. cbn. by rewrite Z.div_small by lia.
    + rewrite andb_true_r.
      destruct (Nat.eqb_spec (length acc) 0) as [H0 | H0]; cbn.
      * rewrite H0. cbn. by rewrite Z.div_small by lia.
      * change (Z.of_nat 1) with 1%Z.
        apply (Z.div_unique_pos _ _ 1 (Z.of_nat (length acc) - 1)); lia.
  - assert (Hlen : length (acc ++ [i]) = S (length acc))
      by (rewrite length_app; cbn; lia).
    destruct (Z.eqb_spec (Z.of_nat (length (acc ++ [i]))) bs) as [Heq | Hne].
    + cbn [length]. rewrite Nat2Z.inj_succ, (IH []) by (cbn; lia). cbn [length].
      replace (Z.of_nat (length acc + S (length idx)))
        with (1 * bs + Z.of_nat (0 + length idx))%Z by lia.
      destruct drop.
      * rewrite Z.div_add_l by lia. lia.
      * replace (1 * bs + Z.of_nat (0 + length idx) + bs - 1)%Z
          with (1 * bs + (Z.of_nat (0 + length idx) + bs - 1))%Z by lia.
        rewrite Z.div_add_l by lia. lia.
    + rewrite IH by lia.
      replace (length (acc ++ [i]) + length idx) with (length acc + S (length idx))
        by lia.
      done.
Qed.

(** X13. The validation loader [prepare_dataloaders] builds serves every
    item of its dataset exactly once and in order: the batches of a pass,
    put end to end, are the indices 0 to n-1, whatever the batch size;
    and for a positive batch size no batch is empty or larger than it. *)
Theorem validation_loader_covers_all (train_dataset val_dataset : loc) (bs nw : Z)
    (n : nat) (perm : list nat) :
  let vl := (prepare_dataloaders train_dataset val_dataset bs nw).2 in
  concat (batches vl n perm) = seq 0 n /\
  ((0 < bs)%Z ->
   Forall (fun b => (0 < Z.of_nat (length b) <= bs)%Z) (batches vl n perm)).
Proof.
  cbn. unfold batches, sampler. cbn. split.
  - apply batch_sampler_keep_concat.
  - intros Hbs. apply batch_sampler_keep_sizes; [done | cbn; lia].
Qed.

(** X14. The training loader [prepare_dataloaders] builds serves a
    beginning of the order drawn for the pass and nothing else: the
    batches, put end to end, followed by the items left out, are that
    order; for a positive batch size the items left out are as many as
    the remainder of the number of items by the batch size. *)
Theorem training_loader_drops_tail (train_dataset val_dataset : loc) (bs nw : Z)
    (n : nat) (perm : list nat) :
  let tl := (prepare_dataloaders train_dataset val_dataset bs nw).1 in
  exists rest,
    perm = concat (batches tl n perm) ++ rest /\
    ((0 < bs)%Z -> Z.of_nat (length rest) = (Z.of_nat (length perm) mod bs)%Z).
Proof.
  cbn. unfold batches, sampler. cbn.
  destruct (batch_sampler_drop_prefix bs perm []) as (rest & Hcat & Hrest).
  exists rest. split; [exact Hcat |].
  intros Hbs. apply Hrest; [done | cbn; lia].
Qed.

(** X15. For a positive batch size, a pass of the training loader has as
    many batches as the batch size goes into the number of items, and a
    pass of the validation loader one more when the division leaves a
    remainder.  So a training set smaller than the batch size gives a
    training loader with no batch at all, while a non-empty validation
    set always gives at least one batch. *)
Theorem loader_lengths (train_dataset val_dataset : loc) (bs nw : Z)
    (n : nat) (perm : list nat) :
  (0 < bs)%Z ->
  let tl := (prepare_dataloaders train_dataset val_dataset bs nw).1 in
  let vl := (prepare_dataloaders train_dataset val_dataset bs nw).2 in
  Z.of_nat (length (batches tl n perm)) = (Z.of_nat (length perm) / bs)%Z /\
  Z.of_nat (length (batches vl n perm)) = ((Z.of_nat n + bs - 1) / bs)%Z /\
  ((Z.of_nat (length perm) < bs)%Z -> batches tl n perm = []) /\
  (0 < n -> batches vl n perm <> []).
Proof.
  intros Hbs. cbn. unfold batches, sampler. cbn.
  pose proof (batch_sampler_count bs true perm [] Hbs) as Ht.
  pose proof (batch_sampler_count bs false (seq 0 n) [] Hbs) as Hv.
  cbn in Ht, Hv. rewrite length_seq in Hv.
  specialize (Ht ltac:(lia)). specialize (Hv ltac:(lia)).
  split; [exact Ht |]. split; [exact Hv |]. split.
  - intros Hsmall. rewrite Z.div_small in Ht by lia.
    destruct (batch_sampler bs true [] perm); [done | cbn in Ht; lia].
  - intros Hn Hnil. rewrite Hnil in Hv. cbn in Hv.
    assert (1 <= (Z.of_nat n + bs - 1) / bs)%Z; [| lia].
    apply Z.div_le_lower_bound; lia.
Qed.

End Loaders.

(** * The properties on the concrete setting *)

Local Abbreviation on_demo thm :=
  (thm Demo.sandbox_folder Demo.make_dataset Demo.rng Demo.RandomState
       Demo.stratified_shuffle_split).

(** Membership of a literal name in a literal list. *)
Ltac name_in := cbv [dataset_names cifar_names folder_names archive_names];
  rewrite !elem_of_cons; auto 10.

Ltac name_not_in :=
  let H := fresh in
  cbv [dataset_names cifar_names folder_names archive_names]; intros H;
  repeat (apply elem_of_cons in H as [H | H]; [discriminate |]);
  by apply elem_of_nil in H.

(** C2 at custom: a fraction of exactly 1 trips the assertion, one half
    does not. *)
Lemma fraction_assertion_witness :
  (exists w',
     Demo.prepare_datasets "custom" [] [] (Some "data/train") (Some "data/val")
       None true (Fin 1) Demo.w0
     = (Err (AssertionError
               (if bool_decide ("custom" ∈ dataset_names)
                then Some fraction_msg else None)), w')) /\
  (Demo.prepare_datasets "custom" [] [] (Some "data/train") (Some "data/val")
     None true (Fin 0.5) Demo.w0).1
  <> Err (AssertionError (Some fraction_msg)).
Proof.
  split.
  - apply (proj1 (on_demo fraction_assertion "custom" [] []
                    (Some "data/train") (Some "data/val") None true (Fin 1) Demo.w0));
      reflexivity.
  - apply (proj2 (on_demo fraction_assertion "custom" [] []
                    (Some "data/train") (Some "data/val") None true (Fin 0.5) Demo.w0)).
    right. split; reflexivity.
Defined.

(** C3 at mnist (not a name) and cifar10 (a name). *)
Lemma name_assertion_witness :
  (prepare_transforms "mnist" = Err (AssertionError None) /\
   Demo.prepare_datasets "mnist" [] [] None None None true (Fin 0.5) Demo.w0
   = (Err (AssertionError None), Demo.w0)) /\
  ((exists p, prepare_transforms "cifar10" = Ok p) /\
   (Demo.prepare_datasets "cifar10" [] [] None None None true (Fin 0.5) Demo.w0).1
   <> Err (AssertionError None)).
Proof.
  assert (Hm : "mnist" ∉ dataset_names) by name_not_in.
  assert (Hc : "cifar10" ∈ dataset_names) by name_in.
  destruct (proj1 (on_demo name_assertion "mnist") Hm) as [Ht Hd].
  destruct (proj2 (on_demo name_assertion "cifar10") Hc) as [Hp Hn].
  split; [split; [exact Ht | apply Hd] | split; [exact Hp | apply Hn]].
Defined.

(** C4 at imagenet with one half: the validation object at position 1
    keeps its three samples. *)
Lemma validation_untouched_witness :
  samples_at
    (Demo.prepare_datasets "imagenet" [] [] (Some "data/train") (Some "data/val")
       None true (Fin 0.5) Demo.w0).2 1
  = Some [("cat/9.png", 0); ("dog/8.png", 1); ("dog/9.png", 1)].
Proof.
  pose proof (on_demo validation_untouched "imagenet" [] []
                (Some "data/train") (Some "data/val") None true (Fin 0.5) Demo.w0)
    as Hv.
  destruct (build_datasets _ _ _ _ _ _ _ _ _ _ _) as [rb wb] eqn:Hb in Hv.
  vm_compute in Hb. injection Hb as <- <-.
  destruct Hv as (_ & _ & Hv).
  destruct (Hv _ _ (surjective_pairing _)) as (_ & Heq & _).
  exact (eq_trans Heq eq_refl).
Defined.

(** C6 at a batch size of 3 over 7 items. *)
Lemma loader_policies_witness :
  Forall (fun b => Z.of_nat (length b) = 3%Z)
    (batches (prepare_dataloaders 0 1 3 4).1 7 [4; 2; 6; 0; 1; 5; 3]) /\
  exists b,
    last (batches (prepare_dataloaders 0 1 3 4).2 7 []) = Some b /\
    Z.of_nat (length b) = (Z.of_nat 7 mod 3)%Z /\
    (Z.of_nat (length b) < 3)%Z.
Proof.
  destruct (loader_policies 0 1 3 4) as (_ & _ & Htrain & Hval).
  split; [apply Htrain |].
  apply Hval; [reflexivity | discriminate].
Defined.

(** C7 at stl10 without the download flag: the training split is
    downloaded all the same, the test split is not. *)
Lemma stl10_split_and_download_witness :
  exists r w',
    Demo.prepare_datasets "stl10" [] [] None (Some "data/val") None false
      (Fin (-1)) Demo.w0 = (r, w') /\
    downloads w' = [(STL10, "/opt/msc/datasets")] /\
    r = Ok (0, 1).
Proof.
  destruct (on_demo stl10_split_and_download [] [] None (Some "data/val") None false
              (Fin (-1)) Demo.w0)
    as (r & w' & Hrun & _ & Hdl & Hr).
  exists r, w'. split; [exact Hrun |]. split; [exact Hdl |].
  apply Hr. reflexivity.
Defined.

(** C9 at custom. *)
Lemma folder_branch_no_download_witness :
  Demo.prepare_datasets "custom" [] [] (Some "data/train") (Some "data/val")
    None true (Fin (-1)) Demo.w0
  = Demo.prepare_datasets "custom" [] [] (Some "data/train") (Some "data/val")
      None false (Fin (-1)) Demo.w0.
Proof.
  assert (Hd : "custom" ∈ folder_names) by name_in.
  exact (proj1 (on_demo folder_branch_no_download "custom" [] []
                  (Some "data/train") (Some "data/val") None true (Fin (-1))
                  Demo.w0 Hd)).
Defined.

(** C10 at cifar10 with one half. *)
Lemma archive_fraction_attribute_error_witness :
  exists wb,
    Demo.build_datasets "cifar10" [] [] (Some "data/train") (Some "data/val")
      None true Demo.w0 = (Ok (Some (0, 1)), wb) /\
    samples_at wb 0 = None /\
    Demo.prepare_datasets "cifar10" [] [] (Some "data/train") (Some "data/val")
      None true (Fin 0.5) Demo.w0 = (Err (AttributeError "samples"), wb).
Proof.
  assert (Hd : "cifar10" ∈ archive_names) by name_in.
  assert (Hg : float_gt (Fin 0.5) 0 = true) by reflexivity.
  assert (Hl : float_lt (Fin 0.5) 1 = true) by reflexivity.
  exact (proj1 (on_demo archive_fraction_attribute_error "cifar10" [] []
                  (Some "data/train") (Some "data/val") None true (Fin 0.5)
                  Demo.w0 Hg Hl) Hd).
Defined.

(** * The further properties on the concrete setting *)

(** X1 at custom with one half: the call returns the two positions it
    allocated, and custom is a folder-per-class name. *)
Lemma prepare_datasets_returns_only_if_witness :
  (float_gt (Fin 0.5) 0 = false \/
   (float_lt (Fin 0.5) 1 = true /\ "custom" ∈ folder_names)) /\
  (0, 1) = (length (heap Demo.w0), S (length (heap Demo.w0))).
Proof.
  assert (Hrun :
    (Demo.prepare_datasets "custom" [] [] (Some "data/train") (Some "data/val")
       None true (Fin 0.5) Demo.w0).1 = Ok (0, 1)) by reflexivity.
  destruct (proj1 (on_demo prepare_datasets_returns_only_if "custom" [] []
                     (Some "data/train") (Some "data/val") None true (Fin 0.5)
                     Demo.w0) (0, 1) Hrun) as (_ & Hf & Htv).
  split; [exact Hf | exact Htv].
Defined.

(** X2 at a second call: the first object of the store stays as the first
    call left it. *)
Lemma prepare_datasets_frame_witness :
  heap (Demo.prepare_datasets "imagenet" [ToTensor] [] (Some "data/val") None
          None false (Fin 0.5) Demo.w1).2 !! 0
  = heap Demo.w1 !! 0.
Proof.
  apply (proj2 (proj2 (on_demo prepare_datasets_frame "imagenet" [ToTensor] []
                         (Some "data/val") None None false (Fin 0.5) Demo.w1))).
  vm_compute. lia.
Defined.

(** X3 at cifar10 with the download flag and a fraction of 1: the call
    fails after both downloads. *)
Lemma fraction_checked_after_build_witness :
  Demo.prepare_datasets "cifar10" [] [] (Some "data/train") (Some "data/val")
    None true (Fin 1) Demo.w0
  = (Err (AssertionError (Some fraction_msg)),
     (Demo.build_datasets "cifar10" [] [] (Some "data/train") (Some "data/val")
        None true Demo.w0).2) /\
  downloads
    (Demo.build_datasets "cifar10" [] [] (Some "data/train") (Some "data/val")
       None true Demo.w0).2
  = [(CIFAR10, "data/train"); (CIFAR10, "data/val")].
Proof.
  assert (Hd : "cifar10" ∈ dataset_names) by name_in.
  assert (Hg : float_gt (Fin 1) 0 = true) by reflexivity.
  assert (Hge : float_ge (Fin 1) 1 = true) by reflexivity.
  destruct (on_demo fraction_checked_after_build "cifar10" [] []
              (Some "data/train") (Some "data/val") None true (Fin 1) Demo.w0
              Hd Hg Hge) as (Hrun & _ & Hdl).
  split; [exact Hrun | exact (eq_trans Hdl eq_refl)].
Defined.

(** X4 at cifar100 without the download flag. *)
Lemma cifar_train_flag_and_download_witness :
  exists r w',
    Demo.prepare_datasets "cifar100" [] [] (Some "data/train") (Some "data/val")
      None false (Fin (-1)) Demo.w0 = (r, w') /\
    downloads w' = [] /\
    r = Ok (0, 1).
Proof.
  assert (Hd : "cifar100" ∈ cifar_names) by name_in.
  destruct (on_demo cifar_train_flag_and_download "cifar100" [] []
              (Some "data/train") (Some "data/val") None false (Fin (-1)) Demo.w0 Hd)
    as (_ & r & w' & Hrun & _ & Hdl & Hr).
  exists r, w'. split; [exact Hrun |]. split; [exact Hdl |].
  apply Hr. reflexivity.
Defined.

(** X6 at imagenet with one half of two cats and two dogs. *)
Lemma subsample_is_part_of_folder_witness :
  exists tv w' new,
    Demo.prepare_datasets "imagenet" [] [] (Some "data/train") (Some "data/val")
      None true (Fin 0.5) Demo.w0 = (Ok tv, w') /\
    samples_at w' tv.1 = Some new /\
    new ⊆+ Demo.make_dataset "data/train" /\
    length new <= length (Demo.make_dataset "data/train").
Proof.
  assert (Hd : "imagenet" ∈ folder_names) by name_in.
  assert (H0 : (0 < 0.5)%Q) by reflexivity.
  assert (H1 : (0.5 < 1)%Q) by reflexivity.
  destruct (on_demo subsample_is_part_of_folder "imagenet" [] []
              (Some "data/train") (Some "data/val") None true 0.5%Q Demo.w0 Hd H0 H1)
    as (tv & w' & new & Hrun & Hat & Hsub & Hlen & _).
  - apply (bool_decide_unpack _). vm_compute. exact I.
  - vm_compute. repeat constructor.
  - exists tv, w', new. split; [exact Hrun |]. split; [exact Hat |].
    split; [exact Hsub | exact Hlen].
Defined.


(** X8 at mnist: nothing happens but the failure. *)
Lemma prepare_data_returns_only_if_witness :
  Demo.prepare_data "mnist" (Some "data/train") (Some "data/val") None 64 4 true
    (Fin 0.5) Demo.w0
  = (Err (AssertionError None), Demo.w0).
Proof.
  assert (Hd : "mnist" ∉ dataset_names) by name_not_in.
  exact (proj1 (on_demo prepare_data_returns_only_if "mnist" (Some "data/train")
                  (Some "data/val") None 64 4 true (Fin 0.5) Demo.w0) Hd).
Defined.

(** X9 at stl10. *)
Lemma prepare_data_wiring_witness :
  exists tl vl w' p to vo,
    Demo.prepare_data "stl10" None (Some "data/val") None 64 4 false (Fin (-1))
      Demo.w0 = (Ok (tl, vl), w') /\
    pipelines !! "stl10" = Some p /\
    heap w' !! dataset tl = Some to /\ transform to = T_train p /\
    heap w' !! dataset vl = Some vo /\ transform vo = T_val p /\
    dataset tl <> dataset vl.
Proof.
  destruct (Demo.prepare_data "stl10" None (Some "data/val") None 64 4 false
              (Fin (-1)) Demo.w0) as [[[tl vl] | e] w'] eqn:Hrun;
    [| vm_compute in Hrun; discriminate].
  destruct (on_demo prepare_data_wiring "stl10" None (Some "data/val") None 64 4
              false (Fin (-1)) Demo.w0 w' tl vl Hrun)
    as (p & to & vo & Hp & Hto & Hvo & Hne & _ & _ & _ & _ & _ & _ & Htt & Htv & _).
  exists tl, vl, w', p, to, vo. done.
Defined.

(** X10 at stl10. *)
Lemma validation_pipeline_not_random_witness :
  forallb (fun op => negb (is_random op)) (T_val stl_pipeline) = true /\
  exists rest,
    T_train stl_pipeline
    = RandomResizedCrop (crop_size "stl10") (0.08, 1.0)%Q :: RandomHorizontalFlip :: rest.
Proof.
  assert (Hp : prepare_transforms "stl10" = Ok (T_train stl_pipeline, T_val stl_pipeline))
    by (vm_compute; reflexivity).
  destruct (validation_pipeline_not_random "stl10" _ _ Hp) as (Hv & rest & Ht & _).
  split; [exact Hv | by exists rest].
Defined.

(** X11 at imagenet32: both pipelines use the statistics of cifar. *)
Lemma same_normalization_witness :
  exists mean std,
    omap normalization (T_train imagenet32_pipeline) = [(mean, std)] /\
    omap normalization (T_val imagenet32_pipeline) = [(mean, std)].
Proof.
  assert (Hp : prepare_transforms "imagenet32"
               = Ok (T_train imagenet32_pipeline, T_val imagenet32_pipeline))
    by (vm_compute; reflexivity).
  destruct (same_normalization "imagenet32" _ _ Hp) as (mean & std & Ht & Hv & _).
  by exists mean, std.
Defined.

(** X12 at imagenet32 and at cifar10, on an image of 500 by 375. *)
Lemma pipeline_output_size_witness :
  out_size (T_val imagenet32_pipeline) (500, 375)%Z = (32, 32)%Z /\
  out_size (T_val cifar_pipeline) (500, 375)%Z = (500, 375)%Z.
Proof.
  assert (Hp : prepare_transforms "imagenet32"
               = Ok (T_train imagenet32_pipeline, T_val imagenet32_pipeline))
    by (vm_compute; reflexivity).
  assert (Hc : prepare_transforms "cifar10"
               = Ok (T_train cifar_pipeline, T_val cifar_pipeline))
    by (vm_compute; reflexivity).
  assert (Hn : "imagenet32" ∉ cifar_names) by name_not_in.
  assert (Hi : "cifar10" ∈ cifar_names) by name_in.
  split.
  - exact (proj1 (proj2 (pipeline_output_size "imagenet32" _ _ Hp)) Hn (500, 375)%Z).
  - exact (proj2 (proj2 (pipeline_output_size "cifar10" _ _ Hc)) Hi (500, 375)%Z).
Defined.

(** X13 at a batch size of 3 over 7 items. *)
Lemma validation_loader_covers_all_witness :
  concat (batches (prepare_dataloaders 0 1 3 4).2 7 []) = seq 0 7 /\
  Forall (fun b => (0 < Z.of_nat (length b) <= 3)%Z)
    (batches (prepare_dataloaders 0 1 3 4).2 7 []).
Proof.
  destruct (validation_loader_covers_all 0 1 3 4 7 []) as [Hcat Hsize].
  split; [exact Hcat | apply Hsize; reflexivity].
Defined.

(** X14 at a batch size of 3 over 7 items: one item is left out. *)
Lemma training_loader_drops_tail_witness :
  exists rest,
    [4; 2; 6; 0; 1; 5; 3]
    = concat (batches (prepare_dataloaders 0 1 3 4).1 7 [4; 2; 6; 0; 1; 5; 3]) ++ rest /\
    Z.of_nat (length rest) = 1%Z.
Proof.
  destruct (training_loader_drops_tail 0 1 3 4 7 [4; 2; 6; 0; 1; 5; 3])
    as (rest & Hcat & Hrest).
  exists rest. split; [exact Hcat |]. apply Hrest. reflexivity.
Defined.

(** X15 at a batch size of 3 over 7 items: 2 and 3 batches. *)
Lemma loader_lengths_witness :
  Z.of_nat (length (batches (prepare_dataloaders 0 1 3 4).1 7 [4; 2; 6; 0; 1; 5; 3]))
  = 2%Z /\
  Z.of_nat (length (batches (prepare_dataloaders 0 1 3 4).2 7 [])) = 3%Z.
Proof.
  assert (Hbs : (0 < 3)%Z) by reflexivity.
  destruct (loader_lengths 0 1 3 4 7 [4; 2; 6; 0; 1; 5; 3] Hbs) as (Ht & _).
  destruct (loader_lengths 0 1 3 4 7 [] Hbs) as (_ & Hv & _).
  split; [exact Ht | exact Hv].
Defined.

(** X16 at imagenet with one half of two cats and two dogs: the object at
    position 0 holds the selection. *)
Lemma subsample_is_seeded_selection_witness :
  heap (Demo.prepare_datasets "imagenet" [] [] (Some "data/train") (Some "data/val")
          None true (Fin 0.5) Demo.w0).2 !! 0
  = Some (folder_obj "data/train" []
            (indexing (Demo.make_dataset "data/train")
               (Demo.stratified_shuffle_split (Demo.RandomState 42) (Fin 0.5)
                  (map snd (Demo.make_dataset "data/train"))).1.1)).
Proof.
  assert (Hg : float_gt (Fin 0.5) 0 = true) by reflexivity.
  exact (proj1 (proj2 (on_demo subsample_is_seeded_selection "imagenet" [] []
                         (Some "data/train") (Some "data/val") None true (Fin 0.5)
                         Demo.w0 _ (0, 1) Hg eq_refl))).
Defined.
